(** * Sites toolbox of the OCF dashboard: query and mutation helpers

    A shallow embedding of [sites_toolbox.py].  The helpers run against a
    database session; here a helper is a computation over a [World]: the
    tables the session sees, and the trace of data-access calls made so far.
    A helper either returns a value or raises, and in both cases hands the
    world on. *)

From stdpp Require Import base option list strings pretty.

(** ** Exceptions and outcomes *)

Inductive exn : Type :=
| NotFound
| ValueError (msg : string)
| AttributeError
| UnboundLocalError.

Inductive outcome (A : Type) : Type :=
| Ok (a : A)
| Raise (e : exn).
Arguments Ok {A} a.
Arguments Raise {A} e.

(** A user row: the e-mail is the lookup key, [user_site_group] is the foreign
    key to the one site group of the user. *)
Record UserSQL : Type := {
  email : string;
  user_site_group : string
}.

(** A site group: the name is its lookup key.  Its [sites] and [users] are
    relationships, resolved against the tables (see [SiteGroupSQL_sites]). *)
Record SiteGroupSQL : Type := {
  site_group_name : string
}.

(** A membership row of the site-to-group relationship table. *)
Record SiteGroupSiteSQL : Type := {
  sgs_site_group : string;
  sgs_site : string
}.

#[global] Instance UserSQL_eq_dec : EqDecision UserSQL.
Proof. solve_decision. Defined.
#[global] Instance SiteGroupSQL_eq_dec : EqDecision SiteGroupSQL.
Proof. solve_decision. Defined.
#[global] Instance SiteGroupSiteSQL_eq_dec : EqDecision SiteGroupSiteSQL.
Proof. solve_decision. Defined.

(** What a helper hands to the page for display: Python values.  [PEntity] is
    an ORM object of the session. *)
#[local] Unset Elimination Schemes.
Inductive pyval : Type :=
| PStr (s : string)
| PInt (n : Z)
| PList (l : list pyval)
| PDict (items : list (string * pyval))
| PEntity (g : SiteGroupSQL).
#[local] Set Elimination Schemes.

(** The data-access calls a helper can make; [calls] of a [World] records
    them in order. *)
Inductive call : Type :=
| Call_get_all_sites
| Call_get_user_by_email (email : string)
| Call_get_site_by_uuid (site_uuid : string)
| Call_get_site_group_by_name (site_group_name : string)
| Call_get_site_by_client_site_id (client_site_id : option string)
| Call_add_site_to_site_group (site_uuid site_group_name : string)
| Call_update_user_site_group (email site_group_name : string)
| Call_commit.

Section Model.

(** The column types of [SiteSQL] belong to the data model package, which the
    toolbox only imports.  The keys ([site_uuid], [client_site_id]) are
    carried in the text form [str()] renders, so [str] is the identity on
    them; every other attribute has the type [Column] with its rendering
    [py_str], and the creation time the type [DateTime] with [strftime]. *)
Context {Column DateTime : Type}.
Variable py_str : Column → string.
Variable strftime : DateTime → string → string.

Record SiteSQL : Type := {
  site_uuid : string;
  client_site_id : string;
  client_site_name : Column;
  latitude : Column;
  longitude : Column;
  region : Column;
  dno : Column;
  gsp : Column;
  tilt : Column;
  orientation : Column;
  inverter_capacity_kw : Column;
  module_capacity_kw : Column;
  capacity_kw : Column;
  created_utc : DateTime
}.

Record Database : Type := {
  tbl_sites : list SiteSQL;
  tbl_site_groups : list SiteGroupSQL;
  tbl_site_group_sites : list SiteGroupSiteSQL;
  tbl_users : list UserSQL
}.

Record World : Type := {
  db : Database;
  calls : list call
}.

(** ** The session monad *)

Definition DbM (A : Type) : Type := World → outcome A * World.

#[global] Instance DbM_ret : MRet DbM := λ A a w, (Ok a, w).

#[global] Instance DbM_bind : MBind DbM := λ A B f m w,
  match m w with
  | (Ok a, w') => f a w'
  | (Raise e, w') => (Raise e, w')
  end.

Definition raise {A : Type} (e : exn) : DbM A := λ w, (Raise e, w).

Definition log (c : call) (w : World) : World :=
  {| db := db w; calls := calls w ++ [c] |}.

Definition trace (c : call) : DbM unit := λ w, (Ok (), log c w).

Definition query {A : Type} (f : Database → A) : DbM A :=
  λ w, (Ok (f (db w)), w).

Definition modify (f : Database → Database) : DbM unit :=
  λ w, (Ok (), {| db := f (db w); calls := calls w |}).

Definition or_raise {A : Type} (e : exn) (o : option A) : DbM A :=
  match o with
  | Some a => mret a
  | None => raise e
  end.

(** ** ORM relationships

    [site_group.sites], [site_group.users], [site.site_groups] and
    [user.site_group] are joins over the tables of the session. *)

Definition has_uuid (uuid : string) (s : SiteSQL) : bool :=
  bool_decide (site_uuid s = uuid).

Definition has_client_site_id (cid : option string) (s : SiteSQL) : bool :=
  bool_decide (Some (client_site_id s) = cid).

Definition has_email (email_ : string) (u : UserSQL) : bool :=
  bool_decide (email u = email_).

Definition has_name (name : string) (g : SiteGroupSQL) : bool :=
  bool_decide (site_group_name g = name).

Definition SiteGroupSQL_sites (d : Database) (g : SiteGroupSQL) : list SiteSQL :=
  flat_map (λ r, filter (λ s, site_uuid s = sgs_site r) (tbl_sites d))
    (filter (λ r, sgs_site_group r = site_group_name g) (tbl_site_group_sites d)).

Definition SiteGroupSQL_users (d : Database) (g : SiteGroupSQL) : list UserSQL :=
  filter (λ u, user_site_group u = site_group_name g) (tbl_users d).

Definition SiteSQL_site_groups (d : Database) (s : SiteSQL) : list SiteGroupSQL :=
  flat_map (λ r, filter (λ g, site_group_name g = sgs_site_group r) (tbl_site_groups d))
    (filter (λ r, sgs_site r = site_uuid s) (tbl_site_group_sites d)).

(** [None] when the foreign key dangles. *)
Definition UserSQL_site_group (d : Database) (u : UserSQL) : option SiteGroupSQL :=
  find (has_name (user_site_group u)) (tbl_site_groups d).

Definition membership_row (uuid name : string) : SiteGroupSiteSQL :=
  {| sgs_site_group := name; sgs_site := uuid |}.

(** The membership rows that relate each of the sites to the group. *)
Definition rows_for (g : SiteGroupSQL) (sites : list SiteSQL) : list SiteGroupSiteSQL :=
  map (λ s, membership_row (site_uuid s) (site_group_name g)) sites.

Definition insert_rows (rows : list SiteGroupSiteSQL) (d : Database) : Database :=
  {| tbl_sites := tbl_sites d;
     tbl_site_groups := tbl_site_groups d;
     tbl_site_group_sites := tbl_site_group_sites d ++ rows;
     tbl_users := tbl_users d |}.

(** The tables with the site a member of the group: a row is added only when
    none relates the two yet. *)
Definition ensure_member (uuid name : string) (d : Database) : Database :=
  if decide (membership_row uuid name ∈ tbl_site_group_sites d) then d
  else insert_rows [membership_row uuid name] d.

(** How many membership rows relate the site to the group. *)
Definition membership_count (uuid name : string) (d : Database) : nat :=
  length (filter (λ r, r = membership_row uuid name) (tbl_site_group_sites d)).

(** [site_group.sites.append(site)]: one more membership row. *)
Definition sites_append (g : SiteGroupSQL) (s : SiteSQL) : DbM unit :=
  modify (insert_rows [membership_row (site_uuid s) (site_group_name g)]).

(** [session.commit()]: the changes made through the session are already in
    its tables; the commit is recorded. *)
Definition commit : DbM unit := trace Call_commit.

(** ** Data access layer

    The toolbox imports these functions: four from the data model package,
    and [get_site_by_client_site_id], [add_site_to_site_group] and
    [update_user_site_group] from the dashboard's own [get_data] module. *)

(** Modelled from the spec: [get_all_sites] of the data access layer
    ("list-all(sites)"): every row of the site table, in table order. *)
Definition get_all_sites : DbM (list SiteSQL) :=
  trace Call_get_all_sites;;
  query tbl_sites.

(** Modelled from the spec: [get_user_by_email] ("lookup-by-email");
    "each lookup fails distinguishably when the key is absent". *)
Definition get_user_by_email (email_ : string) : DbM UserSQL :=
  trace (Call_get_user_by_email email_);;
  users ← query tbl_users;
  or_raise NotFound (find (has_email email_) users).

(** Modelled from the spec: [get_site_by_uuid] ("lookup-by-uuid"), failing
    with NotFound when the identifier does not resolve. *)
Definition get_site_by_uuid (uuid : string) : DbM SiteSQL :=
  trace (Call_get_site_by_uuid uuid);;
  sites ← query tbl_sites;
  or_raise NotFound (find (has_uuid uuid) sites).

(** Modelled from the spec: [get_site_group_by_name] ("lookup-by-group-name"),
    failing with NotFound when the group name is unknown. *)
Definition get_site_group_by_name (name : string) : DbM SiteGroupSQL :=
  trace (Call_get_site_group_by_name name);;
  groups ← query tbl_site_groups;
  or_raise NotFound (find (has_name name) groups).

(** Modelled from the spec: [get_site_by_client_site_id] of [get_data]
    ("lookup-by-client-id"): the site carrying the client-assigned
    identifier; NotFound when it maps to zero sites.  The argument is what the
    selection widget returned, which is [None] when it had no option. *)
Definition get_site_by_client_site_id (cid : option string) : DbM SiteSQL :=
  trace (Call_get_site_by_client_site_id cid);;
  sites ← query tbl_sites;
  or_raise NotFound (find (has_client_site_id cid) sites).

(** Modelled from the spec: [add_site_to_site_group] of [get_data]
    ("append-site-to-group(site, group)"): site and group "both must exist";
    it "idempotently ensures the site is a member of the group (no duplicate
    membership)": "adding a site already in the group is a no-op".  It hands
    back the sites of the group. *)
Definition add_site_to_site_group (uuid name : string) : DbM (list SiteSQL) :=
  trace (Call_add_site_to_site_group uuid name);;
  groups ← query tbl_site_groups;
  site_group ← or_raise NotFound (find (has_name name) groups);
  sites ← query tbl_sites;
  site ← or_raise NotFound (find (has_uuid uuid) sites);
  rows ← query tbl_site_group_sites;
  (if decide (membership_row (site_uuid site) (site_group_name site_group) ∈ rows)
   then mret ()
   else sites_append site_group site);;
  query (λ d, SiteGroupSQL_sites d site_group).

Definition set_user_site_group (email_ name : string) (u : UserSQL) : UserSQL :=
  if decide (email u = email_)
  then {| email := email u; user_site_group := name |}
  else u.

Definition update_users (f : UserSQL → UserSQL) (d : Database) : Database :=
  {| tbl_sites := tbl_sites d;
     tbl_site_groups := tbl_site_groups d;
     tbl_site_group_sites := tbl_site_group_sites d;
     tbl_users := map f (tbl_users d) |}.

(** Modelled from the spec: [update_user_site_group] of [get_data]
    ("reassign-user-group(user, group)"): user and group "both must exist";
    it "replaces the user's current group membership with the new group
    (single assignment, not additive)". *)
Definition update_user_site_group (email_ name : string) : DbM unit :=
  trace (Call_update_user_site_group email_ name);;
  groups ← query tbl_site_groups;
  site_group ← or_raise NotFound (find (has_name name) groups);
  users ← query tbl_users;
  _ ← or_raise NotFound (find (has_email email_) users);
  modify (update_users (set_user_site_group email_ (site_group_name site_group))).

(** ** Query and mutation helpers *)

(** An attribute read through a relationship that holds [None] raises. *)
Definition deref {A : Type} (f : Database → option A) : DbM A :=
  o ← query f;
  or_raise AttributeError o.

(** [{"site_uuid": str(site.site_uuid), "client_site_id": str(site.client_site_id)}] *)
Definition site_ids (site : SiteSQL) : list (string * string) :=
  [("site_uuid", site_uuid site); ("client_site_id", client_site_id site)].

Definition get_user_details (email_ : string)
  : DbM (list (list (string * string)) * string * nat) :=
  user_details ← get_user_by_email email_;
  site_group ← deref (λ d, UserSQL_site_group d user_details);
  let user_site_group := site_group_name site_group in
  sites ← query (λ d, SiteGroupSQL_sites d site_group);
  let user_site_count := length sites in
  let user_sites := map site_ids sites in
  mret (user_sites, user_site_group, user_site_count).

Definition get_site_details (uuid : string) : DbM (list (string * pyval)) :=
  site ← get_site_by_uuid uuid;
  site_groups ← query (λ d, SiteSQL_site_groups d site);
  let site_details :=
    [("site_uuid", PStr (site_uuid site));
     ("client_site_id", PStr (client_site_id site));
     ("client_site_name", PStr (py_str (client_site_name site)));
     ("site_group_names", PList (map (λ g, PStr (site_group_name g)) site_groups));
     ("latitude", PStr (py_str (latitude site)));
     ("longitude", PStr (py_str (longitude site)));
     ("region", PStr (py_str (region site)));
     ("DNO", PStr (py_str (dno site)));
     ("GSP", PStr (py_str (gsp site)));
     ("tilt", PStr (py_str (tilt site)));
     ("orientation", PStr (py_str (orientation site)));
     ("inverter_capacity_kw", PStr (py_str (inverter_capacity_kw site) +:+ " kw"));
     ("module_capacity_kw", PStr (py_str (module_capacity_kw site) +:+ " kw"));
     ("capacity", PStr (py_str (capacity_kw site) +:+ " kw"));
     ("date_added", PStr (strftime (created_utc site) "%Y-%m-%d"))] in
  mret site_details.

(** [st.selectbox(label, options)]: the option the operator picked (the first
    one unless they pick another), and [None] when there is no option. *)
Definition st_selectbox (label : string) (options : list string) (pick : nat)
  : option string :=
  match options with
  | [] => None
  | first :: _ => Some (default first (options !! pick))
  end.

(** [pick] is the operator's choice in the selection widget.  The result is
    the value of [selected_uuid]: a string, or [None]. *)
Definition select_site_id (query_method : string) (pick : nat) : DbM (option string) :=
  if decide (query_method = "site_uuid") then
    sites ← get_all_sites;
    let site_uuids := map site_uuid sites in
    let selected_uuid := st_selectbox "Sites by site_uuid" site_uuids pick in
    mret selected_uuid
  else if decide (query_method = "client_site_id") then
    sites ← get_all_sites;
    let client_site_ids := map client_site_id sites in
    let client_site_id_ := st_selectbox "Sites by client_site_id" client_site_ids pick in
    site ← get_site_by_client_site_id client_site_id_;
    let selected_uuid := Some (site_uuid site) in
    mret selected_uuid
  else if decide (query_method ∉ ["site_uuid"; "client_site_id"]) then
    raise (ValueError "Please select a valid query_method.")
  else
    raise UnboundLocalError.

Definition get_site_group_details (name : string)
  : DbM (list (list (string * string)) * list string) :=
  site_group_uuid ← get_site_group_by_name name;
  sites ← query (λ d, SiteGroupSQL_sites d site_group_uuid);
  let site_group_sites := map site_ids sites in
  users ← query (λ d, SiteGroupSQL_users d site_group_uuid);
  let site_group_users := map email users in
  mret (site_group_sites, site_group_users).

(** [site_group] is fetched before the site is added and read after: it is the
    session's object, so [site_group.sites] shows the tables as they are then. *)
Definition update_site_group (uuid name : string)
  : DbM (SiteGroupSQL * list (list (string * string)) * list string) :=
  site_group ← get_site_group_by_name name;
  _ ← add_site_to_site_group uuid name;
  sites ← query (λ d, SiteGroupSQL_sites d site_group);
  let site_group_sites := map site_ids sites in
  site ← get_site_by_uuid uuid;
  site_groups ← query (λ d, SiteSQL_site_groups d site);
  let site_site_groups := map site_group_name site_groups in
  mret (site_group, site_group_sites, site_site_groups).

Definition change_user_site_group (email_ name : string) : DbM (string * string) :=
  update_user_site_group email_ name;;
  user ← get_user_by_email email_;
  site_group ← deref (λ d, UserSQL_site_group d user);
  let user_site_group := site_group_name site_group in
  let user := email user in
  mret (user, user_site_group).

Definition added_message (n : nat) (name : string) : string :=
  "Added " +:+ pretty n +:+ " sites to group " +:+ name +:+ ".".

Definition no_new_sites_message (name : string) : string :=
  "There are no new sites to be added to " +:+ name +:+ ".".

(** The loop of [add_all_sites_to_ocf_group] over [all_sites]; [sites_added]
    and [message] are its variables, [message] unbound ([None]) at first. *)
Fixpoint add_missing_sites (ocf_site_group : SiteGroupSQL) (name : string)
    (site_uuids : list string) (all_sites : list SiteSQL)
    (sites_added : list string) (message : option string)
  : DbM (list string * option string) :=
  match all_sites with
  | [] => mret (sites_added, message)
  | site :: rest =>
    if decide (site_uuid site ∉ site_uuids) then
      sites_append ocf_site_group site;;
      let sites_added := sites_added ++ [site_uuid site] in
      commit;;
      let message := Some (added_message (length sites_added) name) in
      add_missing_sites ocf_site_group name site_uuids rest sites_added message
    else
      add_missing_sites ocf_site_group name site_uuids rest sites_added message
  end.

Definition default_site_group_name : string := "ocf".

Definition add_all_sites_to_ocf_group (name : string) : DbM (string * list string) :=
  all_sites ← get_all_sites;
  ocf_site_group ← get_site_group_by_name name;
  sites ← query (λ d, SiteGroupSQL_sites d ocf_site_group);
  let site_uuids := map site_uuid sites in
  '(sites_added, message) ← add_missing_sites ocf_site_group name site_uuids all_sites [] None;
  let message :=
    if decide (length sites_added = 0) then Some (no_new_sites_message name) else message in
  message ← or_raise UnboundLocalError message;
  mret (message, sites_added).

(** ** The page: showing the details of the selected site *)

(** [d[key]] on a mapping; [None] stands for the KeyError of a missing key. *)
Definition dict_get (key : string) (d : list (string * pyval)) : option pyval :=
  snd <$> find (λ kv, bool_decide (kv.1 = key)) d.

(** The body of [if st.button("Get site details")]: the details of the site,
    and the identifier written next to them. *)
Definition get_site_details_button (query_method uuid : string)
  : DbM (option pyval * list (string * pyval)) :=
  site_details ← get_site_details uuid;
  let site_id :=
    if decide (query_method = "client_site_id")
    then dict_get "client_site_id" site_details
    else dict_get "site_uuid" site_details in
  mret (site_id, site_details).

(** The selection followed by the button.  Modelled from the spec: when the
    selection gave [None], the lookup by UUID has nothing to resolve and fails
    with NotFound. *)
Definition page_get_site_details (query_method : string) (pick : nat)
  : DbM (option pyval * list (string * pyval)) :=
  site_id ← select_site_id query_method pick;
  match site_id with
  | Some uuid => get_site_details_button query_method uuid
  | None => raise NotFound
  end.

(** [update_site_group] called for each of the sites in turn, its results
    dropped: the world this leaves. *)
Definition attach_each (name : string) (sites : list SiteSQL) (w : World) : World :=
  foldl (λ w site, (update_site_group (site_uuid site) name w).2) w sites.

End Model.

(** The keys of the detail view of a site, in the order the mapping is
    built. *)
Definition site_details_keys : list string :=
  ["site_uuid"; "client_site_id"; "client_site_name"; "site_group_names";
   "latitude"; "longitude"; "region"; "DNO"; "GSP"; "tilt"; "orientation";
   "inverter_capacity_kw"; "module_capacity_kw"; "capacity"; "date_added"].

(** ** What the helpers hand to the page, as Python values *)

Definition py_strs (l : list string) : pyval := PList (map PStr l).

Definition py_dict (d : list (string * string)) : pyval :=
  PDict (map (λ kv, (kv.1, PStr kv.2)) d).

Definition py_dicts (l : list (list (string * string))) : pyval :=
  PList (map py_dict l).

(** The mapping a helper builds for a site in a list of sites:
    [{"site_uuid": ..., "client_site_id": ...}], both values strings. *)
Definition site_ids_value {Column DateTime : Type} (site : @SiteSQL Column DateTime)
  : pyval :=
  PDict [("site_uuid", PStr (site_uuid site));
         ("client_site_id", PStr (client_site_id site))].

(** The values in the structure each helper returns: the components of the
    tuple, or the values of the mapping. *)
Definition get_user_details_values
    (r : list (list (string * string)) * string * nat) : list pyval :=
  let '(user_sites, user_site_group, user_site_count) := r in
  [py_dicts user_sites; PStr user_site_group; PInt (Z.of_nat user_site_count)].

Definition get_site_details_values (site_details : list (string * pyval)) : list pyval :=
  map snd site_details.

Definition get_site_group_details_values
    (r : list (list (string * string)) * list string) : list pyval :=
  let '(site_group_sites, site_group_users) := r in
  [py_dicts site_group_sites; py_strs site_group_users].

Definition update_site_group_values
    (r : SiteGroupSQL * list (list (string * string)) * list string) : list pyval :=
  let '(site_group, site_group_sites, site_site_groups) := r in
  [PEntity site_group; py_dicts site_group_sites; py_strs site_site_groups].

Definition change_user_site_group_values (r : string * string) : list pyval :=
  let '(user, user_site_group) := r in
  [PStr user; PStr user_site_group].

Definition add_all_sites_to_ocf_group_values (r : string * list string) : list pyval :=
  let '(message, sites_added) := r in
  [PStr message; py_strs sites_added].

Definition is_str (v : pyval) : bool :=
  match v with PStr _ => true | _ => false end.

Definition is_str_list (v : pyval) : bool :=
  match v with PList l => forallb is_str l | _ => false end.

Definition is_str_dict (v : pyval) : bool :=
  match v with PDict items => forallb (λ kv, is_str kv.2) items | _ => false end.

(** A string, a list of strings, or a mapping from strings to strings. *)
Definition plain_value (v : pyval) : bool :=
  is_str v || is_str_list v || is_str_dict v.

(** The values a run hands to the page: those of its result, none when it
    raises. *)
Definition returned {A World : Type} (values : A → list pyval)
    (run : outcome A * World) : list pyval :=
  match run.1 with
  | Ok r => values r
  | Raise _ => []
  end.

(** ** The "Create new site" form of the page *)

Section Form.

(** [json.dumps], of the Python library, on a mapping with string keys. *)
Variable json_dumps : list (string * option string) → string.

(** The text typed in the inputs of the form. *)
Record site_form : Type := {
  typed_client_site_id : string;
  typed_client_site_name : string;
  typed_dno_id : string;
  typed_dno_name : string;
  typed_dno_long_name : string;
  typed_gsp_id : string;
  typed_gsp_name : string;
  typed_latitude : string;
  typed_longitude : string;
  typed_region : string;
  typed_orientation : string;
  typed_tilt : string;
  typed_inverter_capacity_kw : string;
  typed_module_capacity_kw : string;
  typed_capacity_kw : string
}.

(** [st.text_input(label)]: the text in the input, the empty string when
    nothing was typed.  The value held by a variable of the page is a string
    or [None]. *)
Definition st_text_input (typed : string) : option string := Some typed.

(** How an f-string renders such a value. *)
Definition fstr (v : option string) : string := default "None" v.

Record create_new_site_args : Type := {
  arg_client_site_id : option string;
  arg_client_site_name : option string;
  arg_region : option string;
  arg_dno : option string;
  arg_gsp : option string;
  arg_orientation : option string;
  arg_tilt : option string;
  arg_latitude : option string;
  arg_longitude : option string;
  arg_inverter_capacity_kw : option string;
  arg_module_capacity_kw : option string;
  arg_capacity_kw : option string
}.

(** What pressing the button leads to: the missing-data message written to the
    page, or the call of [create_new_site]. *)
Inductive button_action : Type :=
| St_write (message : string)
| Call_create_new_site (args : create_new_site_args).

(** The body of [if st.button("Create new site")], up to the call. *)
Definition create_new_site_button (f : site_form) : button_action :=
  let client_site_id := st_text_input (typed_client_site_id f) in
  let client_site_name := st_text_input (typed_client_site_name f) in
  let dno_id := st_text_input (typed_dno_id f) in
  let dno_name := st_text_input (typed_dno_name f) in
  let dno_long_name := st_text_input (typed_dno_long_name f) in
  let dno_formatted :=
    Some (json_dumps [("dno_id", dno_id); ("name", dno_name); ("long_name", dno_long_name)]) in
  let gsp_id := st_text_input (typed_gsp_id f) in
  let gsp_name := st_text_input (typed_gsp_name f) in
  let gsp_formatted := Some (json_dumps [("gsp_id", gsp_id); ("name", gsp_name)]) in
  let latitude := st_text_input (typed_latitude f) in
  let longitude := st_text_input (typed_longitude f) in
  let region := st_text_input (typed_region f) in
  let orientation := st_text_input (typed_orientation f) in
  let tilt := st_text_input (typed_tilt f) in
  let inverter_capacity_kw := st_text_input (typed_inverter_capacity_kw f) in
  let module_capacity_kw := st_text_input (typed_module_capacity_kw f) in
  let capacity_kw := st_text_input (typed_capacity_kw f) in
  if decide (None ∈ [client_site_id; client_site_name; region; dno_formatted;
                     gsp_formatted; orientation; tilt; latitude; longitude;
                     inverter_capacity_kw; module_capacity_kw; capacity_kw])
  then
    St_write ("Please check that you've entered data for each field."
              +:+ " " +:+ fstr client_site_id +:+ " " +:+ fstr client_site_name
              +:+ " " +:+ fstr region +:+ " " +:+ fstr dno_formatted +:+ " "
              +:+ fstr gsp_formatted +:+ " " +:+ fstr orientation
              +:+ " " +:+ fstr tilt +:+ " " +:+ fstr latitude
              +:+ " " +:+ fstr longitude +:+ " "
              +:+ fstr inverter_capacity_kw +:+ " " +:+ fstr module_capacity_kw
              +:+ " " +:+ fstr capacity_kw)
  else
    Call_create_new_site
      {| arg_client_site_id := client_site_id;
         arg_client_site_name := client_site_name;
         arg_region := region;
         arg_dno := dno_formatted;
         arg_gsp := gsp_formatted;
         arg_orientation := orientation;
         arg_tilt := tilt;
         arg_latitude := latitude;
         arg_longitude := longitude;
         arg_inverter_capacity_kw := inverter_capacity_kw;
         arg_module_capacity_kw := module_capacity_kw;
         arg_capacity_kw := capacity_kw |}.

(** Every free-text field present: what the form is to check before it submits. *)
Definition all_fields_present (f : site_form) : bool :=
  forallb (λ s, negb (String.eqb s ""))
    [typed_client_site_id f; typed_client_site_name f; typed_dno_id f;
     typed_dno_name f; typed_dno_long_name f; typed_gsp_id f; typed_gsp_name f;
     typed_latitude f; typed_longitude f; typed_region f; typed_orientation f;
     typed_tilt f; typed_inverter_capacity_kw f; typed_module_capacity_kw f;
     typed_capacity_kw f].

(** What the "Check DNO data" and "Check GSP data" buttons lead to: a message
    written to the page, or the formatted data shown. *)
Inductive check_action : Type :=
| Check_write (message : string)
| Check_json (formatted : string).

(** The body of [if st.button("Check DNO data")]. *)
Definition check_dno_button (f : site_form) : check_action :=
  let dno_id := st_text_input (typed_dno_id f) in
  let dno_name := st_text_input (typed_dno_name f) in
  let dno_long_name := st_text_input (typed_dno_long_name f) in
  let dno_formatted :=
    json_dumps [("dno_id", dno_id); ("name", dno_name); ("long_name", dno_long_name)] in
  if decide (dno_name = Some "" ∨ dno_long_name = Some "" ∨ dno_id = Some "") then
    Check_write "Please check that you've entered an integer for dno_id and a string for name and long_name."
  else
    Check_json dno_formatted.

(** The body of [if st.button("Check GSP data")]. *)
Definition check_gsp_button (f : site_form) : check_action :=
  let gsp_id := st_text_input (typed_gsp_id f) in
  let gsp_name := st_text_input (typed_gsp_name f) in
  let gsp_formatted := json_dumps [("gsp_id", gsp_id); ("name", gsp_name)] in
  if decide (gsp_id = Some "" ∨ gsp_name = Some "") then
    Check_write "Please check that you've entered an integer for gsp_id and a string for gsp_name."
  else
    Check_json gsp_formatted.

End Form.

(** ** Sample data *)

Definition sample_site (uuid cid : string) : @SiteSQL string string :=
  {| site_uuid := uuid; client_site_id := cid; client_site_name := "roof";
     latitude := "51.5"; longitude := "-0.1"; region := "London";
     dno := "UKPN"; gsp := "Sundon"; tilt := "35"; orientation := "180";
     inverter_capacity_kw := "4"; module_capacity_kw := "4.2";
     capacity_kw := "4"; created_utc := "2023-05-01" |}.

Definition site_a : @SiteSQL string string := sample_site "uuid-a" "101".
Definition site_b : @SiteSQL string string := sample_site "uuid-b" "102".

Definition sample_db : @Database string string :=
  {| tbl_sites := [site_a; site_b];
     tbl_site_groups := [ {| site_group_name := "ocf" |};
                          {| site_group_name := "client" |} ];
     tbl_site_group_sites := [membership_row "uuid-a" "client"];
     tbl_users := [ {| email := "alice@example.org"; user_site_group := "client" |} ] |}.

Definition sample_world : @World string string := {| db := sample_db; calls := [] |}.

Definition empty_db : @Database string string :=
  {| tbl_sites := []; tbl_site_groups := []; tbl_site_group_sites := []; tbl_users := [] |}.

Definition empty_world : @World string string := {| db := empty_db; calls := [] |}.

(** Renderings for the sample data, whose columns hold text already. *)
Definition sample_str (c : string) : string := c.
Definition sample_strftime (t : string) (fmt : string) : string := t.

Definition empty_form : site_form :=
  {| typed_client_site_id := ""; typed_client_site_name := ""; typed_dno_id := "";
     typed_dno_name := ""; typed_dno_long_name := ""; typed_gsp_id := "";
     typed_gsp_name := ""; typed_latitude := ""; typed_longitude := "";
     typed_region := ""; typed_orientation := ""; typed_tilt := "";
     typed_inverter_capacity_kw := ""; typed_module_capacity_kw := "";
     typed_capacity_kw := "" |}.

(** * Properties *)

Section Properties.

Context {Column DateTime : Type}.
Variable py_str : Column → string.
Variable strftime : DateTime → string → string.

Abbreviation Site := (@SiteSQL Column DateTime).
Abbreviation Db := (@Database Column DateTime).
Abbreviation W := (@World Column DateTime).

(** ** Running the monad *)

Ltac dbm :=
  unfold deref, or_raise, commit, sites_append, trace, query, modify, raise;
  unfold mbind, DbM_bind, mret, DbM_ret; simpl.

Lemma has_uuid_true uuid (s : Site) : has_uuid uuid s = true ↔ site_uuid s = uuid.
Proof. unfold has_uuid. apply bool_decide_eq_true. Qed.

Lemma has_name_true name g : has_name name g = true ↔ site_group_name g = name.
Proof. unfold has_name. apply bool_decide_eq_true. Qed.

Lemma has_email_true e u : has_email e u = true ↔ email u = e.
Proof. unfold has_email. apply bool_decide_eq_true. Qed.

Lemma has_client_site_id_true cid (s : Site) :
  has_client_site_id (Some cid) s = true ↔ client_site_id s = cid.
Proof.
  unfold has_client_site_id. rewrite bool_decide_eq_true.
  split; [by intros [= ->] | by intros ->].
Qed.

Lemma find_elem_of {A} (f : A → bool) l x :
  find f l = Some x → x ∈ l ∧ f x = true.
Proof. intros H. apply find_some in H as [H1 H2]. by rewrite list_elem_of_In. Qed.

Lemma find_none_elem_of {A} (f : A → bool) l :
  (∀ x, x ∈ l → f x = false) → find f l = None.
Proof.
  induction l as [|a l IH]; intros H; simpl; [done|].
  rewrite (H a) by left. apply IH. intros x Hx. apply H. by right.
Qed.

Lemma find_is_Some {A} (f : A → bool) l x :
  x ∈ l → f x = true → is_Some (find f l).
Proof.
  induction 1 as [x l|x y l _ IH]; intros Hf; simpl.
  - rewrite Hf. by eexists.
  - destruct (f y); [by eexists | by apply IH].
Qed.

(** The only match is the one [find] returns. *)
Lemma find_unique {A} (f : A → bool) l x :
  x ∈ l → f x = true → (∀ y, y ∈ l → f y = true → y = x) → find f l = Some x.
Proof.
  intros Hx Hf Huniq. destruct (find_is_Some f l x Hx Hf) as [y Hy].
  rewrite Hy. f_equal. apply find_elem_of in Hy as [Hin Hfy]. by apply Huniq.
Qed.

(** ** The data access layer, run *)

Lemma get_all_sites_run (w : W) :
  get_all_sites w = (Ok (tbl_sites (db w)), log Call_get_all_sites w).
Proof. reflexivity. Qed.

Lemma get_site_group_by_name_run (w : W) name :
  get_site_group_by_name name w =
  (match find (has_name name) (tbl_site_groups (db w)) with
   | Some g => Ok g
   | None => Raise NotFound
   end, log (Call_get_site_group_by_name name) w).
Proof. unfold get_site_group_by_name. dbm. by destruct (find _ _). Qed.

Lemma get_site_by_uuid_run (w : W) uuid :
  get_site_by_uuid uuid w =
  (match find (has_uuid uuid) (tbl_sites (db w)) with
   | Some s => Ok s
   | None => Raise NotFound
   end, log (Call_get_site_by_uuid uuid) w).
Proof. unfold get_site_by_uuid. dbm. by destruct (find _ _). Qed.

Lemma get_user_by_email_run (w : W) e :
  get_user_by_email e w =
  (match find (has_email e) (tbl_users (db w)) with
   | Some u => Ok u
   | None => Raise NotFound
   end, log (Call_get_user_by_email e) w).
Proof. unfold get_user_by_email. dbm. by destruct (find _ _). Qed.

Lemma get_site_by_client_site_id_run (w : W) cid :
  get_site_by_client_site_id cid w =
  (match find (has_client_site_id cid) (tbl_sites (db w)) with
   | Some s => Ok s
   | None => Raise NotFound
   end, log (Call_get_site_by_client_site_id cid) w).
Proof. unfold get_site_by_client_site_id. dbm. by destruct (find _ _). Qed.

Lemma bind_run {A B} (m : DbM A) (f : A → DbM B) (w : W) :
  (m ≫= f) w =
  match m w with
  | (Ok a, w') => f a w'
  | (Raise e, w') => (Raise e, w')
  end.
Proof. reflexivity. Qed.

(** ** User detail lookup *)

(** C7: for an existing user whose group is [g], [get_user_details] returns
    the site identifier pairs of the sites of [g], the name of [g] (the group
    the user row refers to) and the number of sites of [g], and leaves the
    tables as they are; when the e-mail matches no user it raises NotFound. *)
Theorem get_user_details_correct (w : W) (e : string) :
  (∀ u g,
     find (has_email e) (tbl_users (db w)) = Some u →
     UserSQL_site_group (db w) u = Some g →
     site_group_name g = user_site_group u ∧
     get_user_details e w =
       (Ok (map site_ids (SiteGroupSQL_sites (db w) g),
            site_group_name g,
            length (SiteGroupSQL_sites (db w) g)),
        log (Call_get_user_by_email e) w)) ∧
  ((∀ u, u ∈ tbl_users (db w) → email u ≠ e) →
   get_user_details e w = (Raise NotFound, log (Call_get_user_by_email e) w)).
Proof.
  split.
  - intros u g Hu Hg. split.
    + apply find_elem_of in Hg as [_ Hg]. by apply has_name_true.
    + unfold get_user_details. rewrite bind_run, get_user_by_email_run, Hu.
      dbm. by rewrite Hg.
  - intros Hnone. unfold get_user_details.
    rewrite bind_run, get_user_by_email_run.
    rewrite find_none_elem_of; [done|].
    intros u Hu. apply not_true_is_false. rewrite has_email_true. by apply Hnone.
Qed.

(** ** Selecting a site *)

Lemma st_selectbox_elem_of label options pick o :
  st_selectbox label options pick = Some o → o ∈ options.
Proof.
  destruct options as [|first rest]; [done|]. simpl. intros [= <-].
  destruct (_ !! pick) as [x|] eqn:Hx; simpl.
  - by eapply list_elem_of_lookup_2.
  - by left.
Qed.

Lemma st_selectbox_is_Some label options pick :
  options ≠ [] → is_Some (st_selectbox label options pick).
Proof. destruct options; [done|]. by eexists. Qed.

Lemma select_site_id_invalid (w : W) query_method pick :
  query_method ≠ "site_uuid" → query_method ≠ "client_site_id" →
  select_site_id query_method pick w =
  (Raise (ValueError "Please select a valid query_method."), w).
Proof.
  intros H1 H2. unfold select_site_id.
  rewrite !decide_False by done.
  rewrite decide_True; [done|].
  rewrite !not_elem_of_cons. split_and!; [congruence..|apply not_elem_of_nil].
Qed.

Lemma select_site_id_by_uuid (w : W) pick :
  select_site_id "site_uuid" pick w =
  (Ok (st_selectbox "Sites by site_uuid" (map site_uuid (tbl_sites (db w))) pick),
   log Call_get_all_sites w).
Proof. reflexivity. Qed.

Lemma select_site_id_by_client_site_id (w : W) pick :
  let cid := st_selectbox "Sites by client_site_id"
               (map client_site_id (tbl_sites (db w))) pick in
  select_site_id "client_site_id" pick w =
  (match find (has_client_site_id cid) (tbl_sites (db w)) with
   | Some s => Ok (Some (site_uuid s))
   | None => Raise NotFound
   end,
   log (Call_get_site_by_client_site_id cid) (log Call_get_all_sites w)).
Proof.
  intros cid. unfold select_site_id. simpl.
  rewrite bind_run, get_all_sites_run, bind_run, get_site_by_client_site_id_run.
  simpl. fold cid. by destruct (find _ _).
Qed.

(** C10 (as amended): a [query_method] other than "site_uuid" and
    "client_site_id" makes [select_site_id] raise ValueError with the world
    untouched, so that no data-access call, and no site lookup, was made; for
    the two valid values, when the site table is not empty, it returns the
    UUID string of a site of the table and leaves the tables as they are. *)
Theorem select_site_id_spec (w : W) (query_method : string) (pick : nat) :
  (query_method ≠ "site_uuid" → query_method ≠ "client_site_id" →
   select_site_id query_method pick w =
     (Raise (ValueError "Please select a valid query_method."), w)) ∧
  (query_method = "site_uuid" ∨ query_method = "client_site_id" →
   tbl_sites (db w) ≠ [] →
   ∃ s w', s ∈ tbl_sites (db w) ∧
     select_site_id query_method pick w = (Ok (Some (site_uuid s)), w') ∧
     db w' = db w).
Proof.
  split; [apply select_site_id_invalid|].
  intros [-> | ->] Hne.
  - rewrite select_site_id_by_uuid.
    destruct (st_selectbox_is_Some "Sites by site_uuid"
                (map site_uuid (tbl_sites (db w))) pick) as [uuid Huuid].
    { by destruct (tbl_sites (db w)). }
    rewrite Huuid. apply st_selectbox_elem_of in Huuid.
    apply list_elem_of_fmap in Huuid as (s & -> & Hs).
    by exists s, (log Call_get_all_sites w).
  - pose proof (select_site_id_by_client_site_id w pick) as Hrun.
    simpl in Hrun. rewrite Hrun. clear Hrun.
    destruct (st_selectbox_is_Some "Sites by client_site_id"
                (map client_site_id (tbl_sites (db w))) pick) as [cid Hcid].
    { by destruct (tbl_sites (db w)). }
    rewrite Hcid. apply st_selectbox_elem_of in Hcid.
    apply list_elem_of_fmap in Hcid as (s0 & -> & Hs0).
    destruct (find_is_Some (has_client_site_id (Some (client_site_id s0)))
                (tbl_sites (db w)) s0 Hs0) as [s Hs].
    { by apply has_client_site_id_true. }
    rewrite Hs. apply find_elem_of in Hs as [Hin _].
    by eexists s, _.
Qed.

(** ** Site detail lookup *)

(** The detail view of a site, given the groups it belongs to. *)
Lemma get_site_details_run (w : W) uuid :
  ∃ view : Site → list SiteGroupSQL → list (string * pyval),
  ∀ w' : W, db w' = db w →
  get_site_details py_str strftime uuid w' =
  (match find (has_uuid uuid) (tbl_sites (db w)) with
   | Some s => Ok (view s (SiteSQL_site_groups (db w) s))
   | None => Raise NotFound
   end, log (Call_get_site_by_uuid uuid) w').
Proof.
  eexists (λ s gs, _). intros w' Hdb. unfold get_site_details.
  rewrite bind_run, get_site_by_uuid_run, Hdb.
  destruct (find _ _) as [s|]; [|done]. dbm. rewrite Hdb. reflexivity.
Qed.

(** C6: a client-assigned identifier that no site carries makes the lookup
    raise NotFound (and so does selecting by client identifier when there is
    no site at all); when the identifier the operator selects is carried by
    exactly one site [s], [select_site_id] with "client_site_id" returns the
    UUID of [s], and [get_site_details] on it, run after the selection,
    returns the same detail view as the lookup by that UUID run directly,
    which succeeds. *)
Theorem client_site_id_lookup_agrees_with_uuid_lookup (w : W) (cid : string) :
  ((∀ s, s ∈ tbl_sites (db w) → client_site_id s ≠ cid) →
   (get_site_by_client_site_id (Some cid) w).1 = Raise NotFound) ∧
  (tbl_sites (db w) = [] →
   ∀ pick, (select_site_id "client_site_id" pick w).1 = Raise NotFound) ∧
  (∀ (s : Site) pick,
     st_selectbox "Sites by client_site_id"
       (map client_site_id (tbl_sites (db w))) pick = Some cid →
     s ∈ tbl_sites (db w) →
     client_site_id s = cid →
     (∀ s', s' ∈ tbl_sites (db w) → client_site_id s' = cid → s' = s) →
     ∃ w1 view,
       select_site_id "client_site_id" pick w = (Ok (Some (site_uuid s)), w1) ∧
       (get_site_details py_str strftime (site_uuid s) w1).1 = Ok view ∧
       (get_site_details py_str strftime (site_uuid s) w).1 = Ok view).
Proof.
  split_and!.
  - intros Hnone. rewrite get_site_by_client_site_id_run. simpl.
    rewrite find_none_elem_of; [done|].
    intros s Hs. apply not_true_is_false.
    rewrite has_client_site_id_true. by apply Hnone.
  - intros Hempty pick.
    pose proof (select_site_id_by_client_site_id w pick) as Hrun.
    simpl in Hrun. rewrite Hrun. by rewrite Hempty.
  - intros s pick Hpick Hs Hcid Huniq.
    pose proof (select_site_id_by_client_site_id w pick) as Hrun.
    simpl in Hrun. rewrite Hrun, Hpick. clear Hrun.
    rewrite (find_unique _ _ s Hs).
    2: { by apply has_client_site_id_true. }
    2: { intros y Hy Hy'. apply Huniq; [done|]. by apply has_client_site_id_true. }
    destruct (get_site_details_run w (site_uuid s)) as [view Hview].
    destruct (find_is_Some (has_uuid (site_uuid s)) (tbl_sites (db w)) s Hs)
      as [s0 Hs0]; [by apply has_uuid_true|].
    eexists _, (view s0 (SiteSQL_site_groups (db w) s0)). split; [done|].
    rewrite !Hview by done. by rewrite Hs0.
Qed.

(** ** Membership rows and the relationships *)

Lemma insert_rows_nil (d : Db) : insert_rows [] d = d.
Proof. destruct d. unfold insert_rows. simpl. by rewrite app_nil_r. Qed.

Lemma insert_rows_app rows1 rows2 (d : Db) :
  insert_rows rows2 (insert_rows rows1 d) = insert_rows (rows1 ++ rows2) d.
Proof. unfold insert_rows. simpl. by rewrite app_assoc. Qed.

Lemma elem_of_flat_map {A B} (f : A → list B) l y :
  y ∈ flat_map f l ↔ ∃ x, x ∈ l ∧ y ∈ f x.
Proof.
  rewrite list_elem_of_In, in_flat_map.
  split; intros (x & H1 & H2); exists x; by rewrite ?list_elem_of_In in *.
Qed.

Lemma filter_none {A} (P : A → Prop) `{∀ x, Decision (P x)} l :
  (∀ x, x ∈ l → ¬ P x) → filter P l = [].
Proof.
  induction l as [|a l IH]; intros Hl; [done|].
  rewrite filter_cons_False by (apply Hl; left).
  apply IH. intros x Hx. apply Hl. by right.
Qed.

(** A site of the table is among the sites of a group exactly when a
    membership row relates the two. *)
Lemma member_of_group (d : Db) g uuid :
  uuid ∈ map site_uuid (SiteGroupSQL_sites d g) ↔
  membership_row uuid (site_group_name g) ∈ tbl_site_group_sites d ∧
  ∃ s, s ∈ tbl_sites d ∧ site_uuid s = uuid.
Proof.
  unfold SiteGroupSQL_sites. rewrite list_elem_of_fmap. split.
  - intros (s & -> & Hs). apply elem_of_flat_map in Hs as (r & Hr & Hs).
    apply list_elem_of_filter in Hr as [Hg Hr].
    apply list_elem_of_filter in Hs as [Hu Hs].
    split; [|by exists s].
    destruct r as [rg rs]. simpl in *. subst. done.
  - intros [Hrow (s & Hs & <-)]. exists s. split; [done|].
    apply elem_of_flat_map. exists (membership_row (site_uuid s) (site_group_name g)).
    split; by apply list_elem_of_filter.
Qed.

(** ** Bulk attach *)

Lemma add_missing_sites_run g name site_uuids (all_sites : list Site) :
  ∀ sites_added message (w : W),
  let new := filter (λ s, site_uuid s ∉ site_uuids) all_sites in
  add_missing_sites g name site_uuids all_sites sites_added message w =
  (Ok (sites_added ++ map site_uuid new,
       if decide (new = []) then message
       else Some (added_message (length (sites_added ++ map site_uuid new)) name)),
   {| db := insert_rows (rows_for g new) (db w);
      calls := calls w ++ repeat Call_commit (length new) |}).
Proof.
  induction all_sites as [|site rest IH]; intros sites_added message w.
  - rewrite filter_nil. simpl. rewrite insert_rows_nil, !app_nil_r.
    by destruct w.
  - cbn [add_missing_sites].
    destruct (decide (site_uuid site ∉ site_uuids)) as [Hnew|Hold].
    + rewrite filter_cons_True by done. dbm. rewrite IH. simpl.
      rewrite insert_rows_app. unfold log. simpl.
      rewrite <- !app_assoc. simpl.
      by destruct (filter _ rest) as [|s l] eqn:Hrest.
    + rewrite filter_cons_False by done. apply IH.
Qed.

(** What one run of the bulk attach does, for a group that exists. *)
Lemma add_all_sites_run (w : W) name g :
  find (has_name name) (tbl_site_groups (db w)) = Some g →
  let members := map site_uuid (SiteGroupSQL_sites (db w) g) in
  let missing := filter (λ s, site_uuid s ∉ members) (tbl_sites (db w)) in
  add_all_sites_to_ocf_group name w =
  (Ok (if decide (missing = []) then no_new_sites_message name
       else added_message (length missing) name,
       map site_uuid missing),
   {| db := insert_rows (rows_for g missing) (db w);
      calls := calls w ++ [Call_get_all_sites; Call_get_site_group_by_name name]
                 ++ repeat Call_commit (length missing) |}).
Proof.
  intros Hg members missing. unfold add_all_sites_to_ocf_group.
  rewrite bind_run, get_all_sites_run, bind_run, get_site_group_by_name_run.
  simpl. rewrite Hg. dbm. rewrite add_missing_sites_run. simpl.
  fold members. fold missing.
  destruct missing as [|s l] eqn:Hmissing; simpl;
    rewrite ?length_map; do 2 f_equal; by rewrite <- !(assoc_L (++)).
Qed.

(** C2: for a target group that the lookup resolves, the bulk attach appends
    one membership row per site of the table that was not a member of the
    group and changes no other table content, returns the list of exactly
    those sites' identifiers, and its message is the one stating there are no
    new sites when none was missing, and the addition count otherwise; when
    the lookup of the group raises, so does the bulk attach, with the tables
    as they were. *)
Theorem add_all_sites_adds_exactly_missing (w : W) (name : string) :
  (∀ g, (get_site_group_by_name name w).1 = Ok g →
     let members := map site_uuid (SiteGroupSQL_sites (db w) g) in
     let missing := filter (λ s, site_uuid s ∉ members) (tbl_sites (db w)) in
     ∃ w',
       add_all_sites_to_ocf_group name w =
         (Ok (if decide (missing = []) then no_new_sites_message name
              else added_message (length missing) name,
              map site_uuid missing), w') ∧
       db w' = insert_rows (rows_for g missing) (db w)) ∧
  (∀ e, (get_site_group_by_name name w).1 = Raise e →
     ∃ w', add_all_sites_to_ocf_group name w = (Raise e, w') ∧ db w' = db w).
Proof.
  rewrite get_site_group_by_name_run. split.
  - intros g Hg members missing. simpl in Hg.
    destruct (find _ _) as [g'|] eqn:Hfind; [|done].
    injection Hg as ->.
    pose proof (add_all_sites_run w name g Hfind) as Hrun. simpl in Hrun.
    eexists. split; [exact Hrun|done].
  - intros e He. simpl in He. unfold add_all_sites_to_ocf_group.
    rewrite bind_run, get_all_sites_run, bind_run, get_site_group_by_name_run.
    simpl. destruct (find _ _) as [g'|]; [done|].
    injection He as <-. by eexists.
Qed.

(** C1: when a run of the bulk attach on a group succeeds, a second run on
    the same group right after it returns the message that there are no new
    sites to be added together with an empty list of added identifiers, and
    leaves the tables as the first run left them. *)
Theorem add_all_sites_twice (w w1 : W) (name : string) (r1 : string * list string) :
  add_all_sites_to_ocf_group name w = (Ok r1, w1) →
  ∃ w2,
    add_all_sites_to_ocf_group name w1 = (Ok (no_new_sites_message name, []), w2) ∧
    db w2 = db w1.
Proof.
  intros Hrun1.
  destruct (find (has_name name) (tbl_site_groups (db w))) as [g|] eqn:Hg.
  2: { unfold add_all_sites_to_ocf_group in Hrun1.
       rewrite bind_run, get_all_sites_run, bind_run, get_site_group_by_name_run in Hrun1.
       simpl in Hrun1. by rewrite Hg in Hrun1. }
  rewrite (add_all_sites_run w name g Hg) in Hrun1.
  injection Hrun1 as _ <-. simpl.
  set (members := map site_uuid (SiteGroupSQL_sites (db w) g)).
  set (missing := filter (λ s, site_uuid s ∉ members) (tbl_sites (db w))).
  set (w1 := {| db := insert_rows (rows_for g missing) (db w); calls := _ |}).
  assert (Hnone : filter (λ s : Site, site_uuid s ∉
                    map site_uuid (SiteGroupSQL_sites (db w1) g)) (tbl_sites (db w1)) = []).
  { apply filter_none. intros s Hs Hnot. apply Hnot.
    apply member_of_group. split; [|by exists s].
    simpl. apply elem_of_app.
    destruct (decide (site_uuid s ∈ members)) as [Hin|Hout].
    - left. by apply member_of_group in Hin as [? _].
    - right. unfold rows_for. apply list_elem_of_fmap. exists s. split; [done|].
      by apply list_elem_of_filter. }
  pose proof (add_all_sites_run w1 name g Hg) as Hrun2.
  cbv zeta in Hrun2. rewrite Hnone in Hrun2. rewrite Hrun2.
  eexists. split; [done|]. simpl. by rewrite insert_rows_nil.
Qed.

(** ** Attaching a site to a group *)

Lemma add_site_to_site_group_run (w : W) uuid name :
  add_site_to_site_group uuid name w =
  match find (has_name name) (tbl_site_groups (db w)),
        find (has_uuid uuid) (tbl_sites (db w)) with
  | Some g, Some s =>
      let d := ensure_member uuid name (db w) in
      (Ok (SiteGroupSQL_sites d g),
       {| db := d; calls := calls w ++ [Call_add_site_to_site_group uuid name] |})
  | _, _ => (Raise NotFound, log (Call_add_site_to_site_group uuid name) w)
  end.
Proof.
  unfold add_site_to_site_group. dbm.
  destruct (find (has_name name) _) as [g|] eqn:Hg; [|done]. simpl.
  destruct (find (has_uuid uuid) _) as [s|] eqn:Hs; [|done]. simpl.
  apply find_elem_of in Hg as [_ Hg%has_name_true].
  apply find_elem_of in Hs as [_ Hs%has_uuid_true].
  rewrite Hg, Hs. unfold ensure_member.
  by destruct (decide (_ ∈ _)).
Qed.

Lemma ensure_member_tables uuid name (d : Db) :
  ensure_member uuid name d = d ∨
  ensure_member uuid name d = insert_rows [membership_row uuid name] d.
Proof. unfold ensure_member. destruct (decide _); auto. Qed.

Lemma ensure_member_elem_of uuid name (d : Db) :
  membership_row uuid name ∈ tbl_site_group_sites (ensure_member uuid name d).
Proof.
  unfold ensure_member. destruct (decide _) as [Hin|Hout]; [done|].
  simpl. apply elem_of_app. right. by left.
Qed.

Lemma ensure_member_idemp uuid name (d : Db) :
  ensure_member uuid name (ensure_member uuid name d) = ensure_member uuid name d.
Proof.
  unfold ensure_member at 1.
  by rewrite decide_True by apply ensure_member_elem_of.
Qed.

Lemma membership_count_ensure uuid name (d : Db) :
  membership_count uuid name d ≤ 1 →
  membership_count uuid name (ensure_member uuid name d) = 1.
Proof.
  unfold membership_count, ensure_member. intros Hle.
  destruct (decide _) as [Hin|Hout].
  - destruct (filter _ _) as [|r l] eqn:Hf.
    + by destruct (filter_nil_not_elem_of _ _ (membership_row uuid name) Hf eq_refl).
    + simpl in *. lia.
  - simpl. rewrite filter_app, length_app.
    rewrite (filter_none _ (tbl_site_group_sites d)).
    + by rewrite filter_cons_True.
    + by intros r Hr ->.
Qed.

(** What attaching does, for a site and a group that exist. *)
Lemma update_site_group_run (w : W) uuid name s g :
  find (has_uuid uuid) (tbl_sites (db w)) = Some s →
  find (has_name name) (tbl_site_groups (db w)) = Some g →
  let d := ensure_member uuid name (db w) in
  update_site_group uuid name w =
  (Ok (g, map site_ids (SiteGroupSQL_sites d g),
       map site_group_name (SiteSQL_site_groups d s)),
   {| db := d;
      calls := calls w ++ [Call_get_site_group_by_name name;
                           Call_add_site_to_site_group uuid name;
                           Call_get_site_by_uuid uuid] |}).
Proof.
  intros Hs Hg d. unfold update_site_group.
  rewrite bind_run, get_site_group_by_name_run, Hg.
  rewrite bind_run, add_site_to_site_group_run. simpl. rewrite Hg, Hs.
  dbm. rewrite get_site_by_uuid_run. simpl.
  assert (Hs' : find (has_uuid uuid) (tbl_sites (ensure_member uuid name (db w)))
                = Some s).
  { by destruct (ensure_member_tables uuid name (db w)) as [-> | ->]. }
  rewrite Hs'. unfold log. simpl. by rewrite <- !(assoc_L (++)).
Qed.

(** Whatever its outcome, attaching leaves the tables as they were or with
    the one membership row added. *)
Lemma update_site_group_tables (w : W) uuid name :
  db (update_site_group uuid name w).2 = db w ∨
  db (update_site_group uuid name w).2 = insert_rows [membership_row uuid name] (db w).
Proof.
  unfold update_site_group.
  rewrite bind_run, get_site_group_by_name_run.
  destruct (find (has_name name) _) as [g|] eqn:Hg; [|by left].
  rewrite bind_run, add_site_to_site_group_run. simpl. rewrite Hg.
  destruct (find (has_uuid uuid) _) as [s|] eqn:Hs; [|by left].
  dbm. rewrite get_site_by_uuid_run. simpl.
  destruct (find (has_uuid uuid) (tbl_sites (ensure_member uuid name (db w))));
    simpl; apply ensure_member_tables.
Qed.

(** C3: for a site and a group that exist and are related by at most one
    membership row, attaching the site to the group twice succeeds both
    times, the second time changes no table, and exactly one membership row
    relates the two afterwards; when the site was in the group already, the
    first time changes no table either. *)
Theorem update_site_group_twice (w : W) (uuid name : string) (s : Site) (g : SiteGroupSQL) :
  find (has_uuid uuid) (tbl_sites (db w)) = Some s →
  find (has_name name) (tbl_site_groups (db w)) = Some g →
  membership_count uuid name (db w) ≤ 1 →
  ∃ r1 w1 r2 w2,
    update_site_group uuid name w = (Ok r1, w1) ∧
    update_site_group uuid name w1 = (Ok r2, w2) ∧
    db w2 = db w1 ∧
    membership_count uuid name (db w2) = 1 ∧
    (membership_row uuid name ∈ tbl_site_group_sites (db w) → db w1 = db w).
Proof.
  intros Hs Hg Hcount.
  pose proof (update_site_group_run w uuid name s g Hs Hg) as Hrun1.
  cbv zeta in Hrun1.
  set (w1 := {| db := ensure_member uuid name (db w); calls := _ |}) in Hrun1.
  assert (Hs1 : find (has_uuid uuid) (tbl_sites (db w1)) = Some s).
  { simpl. by destruct (ensure_member_tables uuid name (db w)) as [-> | ->]. }
  assert (Hg1 : find (has_name name) (tbl_site_groups (db w1)) = Some g).
  { simpl. by destruct (ensure_member_tables uuid name (db w)) as [-> | ->]. }
  pose proof (update_site_group_run w1 uuid name s g Hs1 Hg1) as Hrun2.
  cbv zeta in Hrun2.
  eexists _, w1, _, _. split_and!; [exact Hrun1|exact Hrun2|..]; simpl.
  - apply ensure_member_idemp.
  - rewrite ensure_member_idemp. by apply membership_count_ensure.
  - intros Hin. unfold ensure_member. by rewrite decide_True.
Qed.

Lemma SiteGroupSQL_sites_frame (d : Db) uuid name g :
  site_group_name g ≠ name →
  SiteGroupSQL_sites (insert_rows [membership_row uuid name] d) g =
  SiteGroupSQL_sites d g.
Proof.
  intros Hne. unfold SiteGroupSQL_sites. simpl.
  rewrite filter_app, filter_cons_False by (simpl; congruence).
  by rewrite filter_nil, app_nil_r.
Qed.

Lemma SiteSQL_site_groups_frame (d : Db) uuid name (s : Site) :
  filter (λ g, site_group_name g ≠ name)
    (SiteSQL_site_groups (insert_rows [membership_row uuid name] d) s) =
  filter (λ g, site_group_name g ≠ name) (SiteSQL_site_groups d s).
Proof.
  unfold SiteSQL_site_groups. simpl.
  rewrite filter_app, flat_map_app, filter_app.
  rewrite (filter_none _ (flat_map _ (filter _ [_]))); [by rewrite app_nil_r|].
  intros g Hg Hne. apply elem_of_flat_map in Hg as (r & Hr & Hg).
  apply list_elem_of_filter in Hr as [_ Hr]. apply list_elem_of_filter in Hg as [Hg _].
  apply list_elem_of_singleton in Hr as ->. done.
Qed.

(** C4: whatever its outcome, attaching a site to a group leaves every other
    group with the same member sites and the same member users, changes no
    user row, and leaves every site with the same memberships in the groups
    other than the target. *)
Theorem update_site_group_frame (w : W) (uuid name : string) :
  let w' := (update_site_group uuid name w).2 in
  (∀ g, site_group_name g ≠ name →
     SiteGroupSQL_sites (db w') g = SiteGroupSQL_sites (db w) g ∧
     SiteGroupSQL_users (db w') g = SiteGroupSQL_users (db w) g) ∧
  tbl_users (db w') = tbl_users (db w) ∧
  (∀ s : Site,
     filter (λ g, site_group_name g ≠ name) (SiteSQL_site_groups (db w') s) =
     filter (λ g, site_group_name g ≠ name) (SiteSQL_site_groups (db w) s)).
Proof.
  intros w'. subst w'.
  destruct (update_site_group_tables w uuid name) as [-> | ->]; [done|].
  split_and!.
  - intros g Hne. split; [by apply SiteGroupSQL_sites_frame|done].
  - done.
  - intros s. apply SiteSQL_site_groups_frame.
Qed.

(** ** Reassigning a user's group *)

Lemma set_user_site_group_email e name u :
  email (set_user_site_group e name u) = email u.
Proof. unfold set_user_site_group. by destruct (decide _). Qed.

Lemma set_user_site_group_at e name u :
  email u = e → user_site_group (set_user_site_group e name u) = name.
Proof. intros He. unfold set_user_site_group. by rewrite decide_True. Qed.

Lemma find_has_email_map e (f : UserSQL → UserSQL) users :
  (∀ u, email (f u) = email u) →
  find (has_email e) (map f users) = f <$> find (has_email e) users.
Proof.
  intros Hf. induction users as [|u users IH]; [done|]. simpl.
  unfold has_email at 1 3. rewrite Hf.
  by destruct (bool_decide (email u = e)).
Qed.

Lemma update_user_site_group_run (w : W) e name u g :
  find (has_email e) (tbl_users (db w)) = Some u →
  find (has_name name) (tbl_site_groups (db w)) = Some g →
  update_user_site_group e name w =
  (Ok (), {| db := update_users (set_user_site_group e name) (db w);
             calls := calls w ++ [Call_update_user_site_group e name] |}).
Proof.
  intros Hu Hg. unfold update_user_site_group. dbm. rewrite Hg. simpl.
  rewrite Hu. simpl.
  apply find_elem_of in Hg as [_ Hg%has_name_true]. by rewrite Hg.
Qed.

(** C5: for a user and a target group that exist, [change_user_site_group]
    returns the user's e-mail with the name of the target group; afterwards
    every row of that user refers to the target group, the user is among the
    users of a group exactly when that group is the target (so no longer among
    those of the group left, when it is another one), and no user row was
    added. *)
Theorem change_user_site_group_exclusive (w : W) (e name : string)
    (u : UserSQL) (g : SiteGroupSQL) :
  find (has_email e) (tbl_users (db w)) = Some u →
  find (has_name name) (tbl_site_groups (db w)) = Some g →
  ∃ w',
    change_user_site_group e name w = (Ok (e, name), w') ∧
    (∀ u', u' ∈ tbl_users (db w') → email u' = e → user_site_group u' = name) ∧
    (∀ g', (∃ u', u' ∈ SiteGroupSQL_users (db w') g' ∧ email u' = e) ↔
           site_group_name g' = name) ∧
    map email (tbl_users (db w')) = map email (tbl_users (db w)).
Proof.
  intros Hu Hg.
  pose proof (find_elem_of _ _ _ Hu) as [Hin He%has_email_true].
  pose proof (find_elem_of _ _ _ Hg) as [_ Hname%has_name_true].
  set (d := update_users (set_user_site_group e name) (db w)).
  assert (Hall : ∀ u', u' ∈ tbl_users d → email u' = e → user_site_group u' = name).
  { intros u' Hu' He'. simpl in Hu'.
    apply list_elem_of_fmap in Hu' as (u0 & -> & _).
    rewrite set_user_site_group_email in He'. by apply set_user_site_group_at. }
  eexists {| db := d; calls := _ |}. split_and!.
  - unfold change_user_site_group.
    rewrite bind_run, (update_user_site_group_run w e name u g Hu Hg).
    rewrite bind_run, get_user_by_email_run. simpl.
    rewrite find_has_email_map by apply set_user_site_group_email.
    rewrite Hu. dbm. unfold UserSQL_site_group. simpl.
    rewrite set_user_site_group_at by done. rewrite Hg. simpl.
    by rewrite set_user_site_group_email, He, Hname.
  - exact Hall.
  - intros g'. unfold SiteGroupSQL_users. split.
    + intros (u' & Hu' & He'). apply list_elem_of_filter in Hu' as [Hgrp Hu'].
      rewrite <- Hgrp. by apply Hall.
    + intros Hg'. exists (set_user_site_group e name u). split.
      * apply list_elem_of_filter. split.
        -- rewrite set_user_site_group_at; done.
        -- simpl. apply list_elem_of_fmap. by exists u.
      * by rewrite set_user_site_group_email.
  - simpl. rewrite <- list_fmap_compose. apply list_fmap_ext.
    intros i u' _. simpl. apply set_user_site_group_email.
Qed.

(** ** The "Create new site" form *)

(** Whatever was typed, empty or not, the button calls [create_new_site]:
    the presence check only looks for [None], which a text input never gives. *)
Lemma create_new_site_button_calls json_dumps (f : site_form) :
  ∃ args, create_new_site_button json_dumps f = Call_create_new_site args.
Proof.
  unfold create_new_site_button, st_text_input.
  rewrite decide_False; [by eexists|].
  rewrite !not_elem_of_cons. split_and!; try done. apply not_elem_of_nil.
Qed.

(** C8 (the code against the claim): with every field of the form left
    empty, the required fields are not all present, and yet the button
    writes no missing-data message: it calls [create_new_site] with the empty
    strings. *)
Theorem create_new_site_button_empty_form json_dumps :
  all_fields_present empty_form = false ∧
  create_new_site_button json_dumps empty_form =
  Call_create_new_site
    {| arg_client_site_id := Some "";
       arg_client_site_name := Some "";
       arg_region := Some "";
       arg_dno := Some (json_dumps [("dno_id", Some ""); ("name", Some "");
                                    ("long_name", Some "")]);
       arg_gsp := Some (json_dumps [("gsp_id", Some ""); ("name", Some "")]);
       arg_orientation := Some "";
       arg_tilt := Some "";
       arg_latitude := Some "";
       arg_longitude := Some "";
       arg_inverter_capacity_kw := Some "";
       arg_module_capacity_kw := Some "";
       arg_capacity_kw := Some "" |}.
Proof.
  split; [done|].
  unfold create_new_site_button, st_text_input.
  rewrite decide_False; [done|].
  rewrite !not_elem_of_cons. split_and!; try done. apply not_elem_of_nil.
Qed.

(** * Further properties of the helpers *)

(** ** Lookups *)

Lemma get_user_details_run (w : W) e :
  get_user_details e w =
  (match find (has_email e) (tbl_users (db w)) with
   | Some u =>
       match UserSQL_site_group (db w) u with
       | Some g => Ok (map site_ids (SiteGroupSQL_sites (db w) g),
                       site_group_name g,
                       length (SiteGroupSQL_sites (db w) g))
       | None => Raise AttributeError
       end
   | None => Raise NotFound
   end, log (Call_get_user_by_email e) w).
Proof.
  unfold get_user_details. rewrite bind_run, get_user_by_email_run.
  destruct (find _ _) as [u|]; [|done]. dbm.
  by destruct (UserSQL_site_group _ _).
Qed.

Lemma get_site_group_details_run (w : W) name :
  get_site_group_details name w =
  (match find (has_name name) (tbl_site_groups (db w)) with
   | Some g => Ok (map site_ids (SiteGroupSQL_sites (db w) g),
                   map email (SiteGroupSQL_users (db w) g))
   | None => Raise NotFound
   end, log (Call_get_site_group_by_name name) w).
Proof.
  unfold get_site_group_details. rewrite bind_run, get_site_group_by_name_run.
  by destruct (find _ _).
Qed.

(** For an existing user whose group resolves, the user lookup and the group
    lookup by the name of that group show the same sites, the site count of
    the former is the length of the site list of the latter, and the e-mail of
    the user is among the users the group lookup returns. *)
Theorem user_and_group_details_agree (w : W) (e : string) (u : UserSQL) (g : SiteGroupSQL) :
  find (has_email e) (tbl_users (db w)) = Some u →
  UserSQL_site_group (db w) u = Some g →
  ∃ sites users,
    (get_user_details e w).1 = Ok (sites, site_group_name g, length sites) ∧
    (get_site_group_details (site_group_name g) w).1 = Ok (sites, users) ∧
    e ∈ users.
Proof.
  intros Hu Hg.
  exists (map site_ids (SiteGroupSQL_sites (db w) g)),
         (map email (SiteGroupSQL_users (db w) g)).
  pose proof (find_elem_of _ _ _ Hu) as [Hin He%has_email_true].
  pose proof (find_elem_of _ _ _ Hg) as [_ Hname%has_name_true].
  split_and!.
  - rewrite get_user_details_run, Hu, Hg. simpl. by rewrite length_map.
  - rewrite get_site_group_details_run. simpl.
    unfold UserSQL_site_group in Hg. by rewrite Hname, Hg.
  - apply list_elem_of_fmap. exists u. split; [done|].
    unfold SiteGroupSQL_users. by apply list_elem_of_filter.
Qed.

(** The four lookups leave every table as it was, whether they return or
    raise. *)
Theorem lookups_leave_tables (w : W) :
  (∀ e, db (get_user_details e w).2 = db w) ∧
  (∀ uuid, db (get_site_details py_str strftime uuid w).2 = db w) ∧
  (∀ name, db (get_site_group_details name w).2 = db w) ∧
  (∀ query_method pick, db (select_site_id query_method pick w).2 = db w).
Proof.
  split_and!.
  - intros e. by rewrite get_user_details_run.
  - intros uuid. destruct (get_site_details_run w uuid) as [view Hview].
    by rewrite (Hview w).
  - intros name. by rewrite get_site_group_details_run.
  - intros query_method pick.
    destruct (decide (query_method = "site_uuid")) as [->|H1];
      [by rewrite select_site_id_by_uuid|].
    destruct (decide (query_method = "client_site_id")) as [->|H2].
    + pose proof (select_site_id_by_client_site_id w pick) as Hrun.
      simpl in Hrun. by rewrite Hrun.
    + by rewrite select_site_id_invalid.
Qed.

(** ** Attaching a site: outcome, result and invariant *)

Lemma update_site_group_cases (w : W) uuid name :
  update_site_group uuid name w =
  match find (has_name name) (tbl_site_groups (db w)) with
  | None => (Raise NotFound, log (Call_get_site_group_by_name name) w)
  | Some g =>
      match find (has_uuid uuid) (tbl_sites (db w)) with
      | None => (Raise NotFound,
                 log (Call_add_site_to_site_group uuid name)
                   (log (Call_get_site_group_by_name name) w))
      | Some s =>
          let d := ensure_member uuid name (db w) in
          (Ok (g, map site_ids (SiteGroupSQL_sites d g),
               map site_group_name (SiteSQL_site_groups d s)),
           {| db := d;
              calls := calls w ++ [Call_get_site_group_by_name name;
                                   Call_add_site_to_site_group uuid name;
                                   Call_get_site_by_uuid uuid] |})
      end
  end.
Proof.
  destruct (find (has_name name) _) as [g|] eqn:Hg.
  - destruct (find (has_uuid uuid) _) as [s|] eqn:Hs.
    + by apply update_site_group_run.
    + unfold update_site_group.
      rewrite bind_run, get_site_group_by_name_run, Hg.
      rewrite bind_run, add_site_to_site_group_run. simpl. by rewrite Hg, Hs.
  - unfold update_site_group.
    by rewrite bind_run, get_site_group_by_name_run, Hg.
Qed.

(** A site of the table is among the groups-side join too: the group of a
    membership row is among the site's groups when the group exists. *)
Lemma group_of_site (d : Db) (s : Site) g :
  g ∈ SiteSQL_site_groups d s ↔
  membership_row (site_uuid s) (site_group_name g) ∈ tbl_site_group_sites d ∧
  g ∈ tbl_site_groups d.
Proof.
  unfold SiteSQL_site_groups. rewrite elem_of_flat_map. split.
  - intros (r & Hr & Hg). apply list_elem_of_filter in Hr as [Hs Hr].
    apply list_elem_of_filter in Hg as [Hn Hg]. split; [|done].
    destruct r as [rg rs]. simpl in *. by subst.
  - intros [Hrow Hg]. exists (membership_row (site_uuid s) (site_group_name g)).
    split; by apply list_elem_of_filter.
Qed.

(** When [update_site_group] returns, the group it hands back carries the
    name asked for, the identifiers of the attached site are in the site list
    it returns, the name of the group is in the list of the site's groups it
    returns, and a membership row relates the two in the tables it leaves. *)
Theorem update_site_group_result (w w' : W) (uuid name : string)
    (g : SiteGroupSQL) (sites : list (list (string * string))) (groups : list string) :
  update_site_group uuid name w = (Ok (g, sites, groups), w') →
  site_group_name g = name ∧
  (∃ s : Site, s ∈ tbl_sites (db w) ∧ site_uuid s = uuid ∧ site_ids s ∈ sites) ∧
  name ∈ groups ∧
  membership_row uuid name ∈ tbl_site_group_sites (db w').
Proof.
  rewrite update_site_group_cases.
  destruct (find (has_name name) _) as [g0|] eqn:Hg; [|done].
  destruct (find (has_uuid uuid) _) as [s|] eqn:Hs; [|done].
  cbv zeta. intros [= <- <- <- <-].
  apply find_elem_of in Hg as [Hgin Hname%has_name_true].
  apply find_elem_of in Hs as [Hsin Huuid%has_uuid_true].
  pose proof (ensure_member_elem_of uuid name (db w)) as Hrow.
  assert (Hsin' : s ∈ tbl_sites (ensure_member uuid name (db w))).
  { by destruct (ensure_member_tables uuid name (db w)) as [-> | ->]. }
  assert (Hgin' : g0 ∈ tbl_site_groups (ensure_member uuid name (db w))).
  { by destruct (ensure_member_tables uuid name (db w)) as [-> | ->]. }
  split_and!; [done| |..|done].
  - exists s. split_and!; [done..|].
    apply list_elem_of_fmap. exists s. split; [done|].
    unfold SiteGroupSQL_sites. apply elem_of_flat_map.
    exists (membership_row uuid name). split; apply list_elem_of_filter; by simpl.
  - apply list_elem_of_fmap. exists g0. split; [done|].
    apply group_of_site. by rewrite Huuid, Hname.
Qed.

(** [update_site_group] raises exactly when the group name or the site UUID
    resolves to no row; what it raises is NotFound, and no table changes. *)
Theorem update_site_group_failure (w : W) (uuid name : string) :
  ((∃ e, (update_site_group uuid name w).1 = Raise e) ↔
   find (has_name name) (tbl_site_groups (db w)) = None ∨
   find (has_uuid uuid) (tbl_sites (db w)) = None) ∧
  (∀ e, (update_site_group uuid name w).1 = Raise e →
        e = NotFound ∧ db (update_site_group uuid name w).2 = db w).
Proof.
  rewrite update_site_group_cases.
  destruct (find (has_name name) _) as [g|]; [|by split; [split; eauto|intros e [= <-]]].
  destruct (find (has_uuid uuid) _) as [s|].
  - split; [split|]; simpl.
    + by intros [e He].
    + by intros [|].
    + by intros e He.
  - split; [split; eauto|]. by intros e [= <-].
Qed.

(** A membership table without duplicate rows is still without duplicates
    after [update_site_group], whatever its outcome. *)
Theorem update_site_group_keeps_rows_distinct (w : W) (uuid name : string) :
  NoDup (tbl_site_group_sites (db w)) →
  NoDup (tbl_site_group_sites (db (update_site_group uuid name w).2)).
Proof.
  intros Hnodup. rewrite update_site_group_cases.
  destruct (find (has_name name) _) as [g|]; [|done].
  destruct (find (has_uuid uuid) _) as [s|]; [|done].
  simpl. unfold ensure_member. destruct (decide _) as [Hin|Hout]; [done|].
  simpl. apply NoDup_app. split_and!; [done| |apply NoDup_singleton].
  intros r Hr ->%list_elem_of_singleton. done.
Qed.

(** ** Bulk attach: postcondition, commits, invariant, frame *)

Lemma add_all_sites_cases (w : W) name :
  add_all_sites_to_ocf_group name w =
  match find (has_name name) (tbl_site_groups (db w)) with
  | None => (Raise NotFound,
             log (Call_get_site_group_by_name name) (log Call_get_all_sites w))
  | Some g =>
      let members := map site_uuid (SiteGroupSQL_sites (db w) g) in
      let missing := filter (λ s, site_uuid s ∉ members) (tbl_sites (db w)) in
      (Ok (if decide (missing = []) then no_new_sites_message name
           else added_message (length missing) name,
           map site_uuid missing),
       {| db := insert_rows (rows_for g missing) (db w);
          calls := calls w ++ [Call_get_all_sites; Call_get_site_group_by_name name]
                     ++ repeat Call_commit (length missing) |})
  end.
Proof.
  destruct (find _ _) as [g|] eqn:Hg; [by apply add_all_sites_run|].
  unfold add_all_sites_to_ocf_group.
  rewrite bind_run, get_all_sites_run, bind_run, get_site_group_by_name_run.
  simpl. by rewrite Hg.
Qed.

Lemma filter_ext_elem_of {A} (P1 P2 : A → Prop)
    `{!∀ x, Decision (P1 x), !∀ x, Decision (P2 x)} (l : list A) :
  (∀ x, x ∈ l → P1 x ↔ P2 x) → filter P1 l = filter P2 l.
Proof.
  induction l as [|a l IH]; intros Hiff; [done|].
  assert (Hl : filter P1 l = filter P2 l).
  { apply IH. intros x Hx. apply Hiff. by right. }
  assert (Ha : P1 a ↔ P2 a) by (apply Hiff; left).
  destruct (decide (P1 a)) as [H1|H1].
  - rewrite (filter_cons_True P1), (filter_cons_True P2) by tauto. by rewrite Hl.
  - by rewrite (filter_cons_False P1), (filter_cons_False P2) by tauto.
Qed.

(** The sites the bulk attach takes as missing are those of the table that no
    membership row relates to the group. *)
Lemma missing_sites_by_rows (d : Db) g :
  filter (λ s, site_uuid s ∉ map site_uuid (SiteGroupSQL_sites d g)) (tbl_sites d) =
  filter (λ s, membership_row (site_uuid s) (site_group_name g) ∉ tbl_site_group_sites d)
    (tbl_sites d).
Proof.
  apply filter_ext_elem_of. intros s Hs. rewrite member_of_group. split.
  - intros Hnot Hrow. apply Hnot. split; [done|by exists s].
  - intros Hnot [Hrow _]. by apply Hnot.
Qed.

(** When the bulk attach returns, a membership row relates every site of the
    table to the target group. *)
Theorem add_all_sites_all_members (w w' : W) (name : string) (r : string * list string) :
  add_all_sites_to_ocf_group name w = (Ok r, w') →
  tbl_sites (db w') = tbl_sites (db w) ∧
  ∀ s, s ∈ tbl_sites (db w') →
       membership_row (site_uuid s) name ∈ tbl_site_group_sites (db w').
Proof.
  rewrite add_all_sites_cases.
  destruct (find _ _) as [g|] eqn:Hg; [|done].
  cbv zeta. intros [= _ <-]. simpl. split; [done|]. intros s Hs.
  apply find_elem_of in Hg as [_ Hname%has_name_true].
  apply elem_of_app. rewrite missing_sites_by_rows, Hname.
  destruct (decide (membership_row (site_uuid s) name ∈ tbl_site_group_sites (db w)))
    as [Hin|Hout]; [by left|right].
  unfold rows_for. apply list_elem_of_fmap. exists s. rewrite Hname.
  split; [done|]. by apply list_elem_of_filter.
Qed.

(** When the bulk attach returns, the calls it made are the two lookups
    followed by one commit per site it reports as added, and nothing else. *)
Theorem add_all_sites_commits_per_addition (w w' : W) (name message : string)
    (sites_added : list string) :
  add_all_sites_to_ocf_group name w = (Ok (message, sites_added), w') →
  calls w' = calls w ++ [Call_get_all_sites; Call_get_site_group_by_name name]
               ++ repeat Call_commit (length sites_added).
Proof.
  rewrite add_all_sites_cases.
  destruct (find _ _) as [g|]; [|done].
  cbv zeta. intros [= _ <- <-]. simpl. by rewrite length_map.
Qed.

Lemma NoDup_fmap_filter {A B} (f : A → B) (P : A → Prop) `{!∀ x, Decision (P x)} l :
  NoDup (map f l) → NoDup (map f (filter P l)).
Proof.
  induction l as [|a l IH]; [done|]. simpl.
  rewrite NoDup_cons. intros [Ha Hl].
  destruct (decide (P a)).
  - rewrite filter_cons_True by done. simpl. apply NoDup_cons. split; [|by apply IH].
    intros (x & Hfx & Hx)%list_elem_of_fmap. apply Ha.
    apply list_elem_of_fmap. exists x. split; [done|].
    by apply list_elem_of_filter in Hx as [_ Hx].
  - rewrite filter_cons_False by done. by apply IH.
Qed.

(** With distinct site UUIDs in the site table, a membership table without
    duplicate rows is still without duplicates after the bulk attach,
    whatever its outcome. *)
Theorem add_all_sites_keeps_rows_distinct (w : W) (name : string) :
  NoDup (map site_uuid (tbl_sites (db w))) →
  NoDup (tbl_site_group_sites (db w)) →
  NoDup (tbl_site_group_sites (db (add_all_sites_to_ocf_group name w).2)).
Proof.
  intros Huuids Hrows. rewrite add_all_sites_cases.
  destruct (find _ _) as [g|]; [|done]. simpl.
  rewrite missing_sites_by_rows. apply NoDup_app. split_and!; [done| |].
  - intros r Hr (s & -> & Hs)%list_elem_of_fmap.
    by apply list_elem_of_filter in Hs as [Hnot _].
  - unfold rows_for.
    rewrite <- (map_map site_uuid (λ uuid, membership_row uuid (site_group_name g))).
    assert (Inj (=) (=) (λ uuid, membership_row uuid (site_group_name g)))
      by (by intros u1 u2 [= ->]).
    apply (NoDup_fmap_2 (λ uuid, membership_row uuid (site_group_name g))).
    by apply NoDup_fmap_filter.
Qed.

(** Whatever its outcome, the bulk attach changes no site, group or user
    row, keeps every membership row in place, and leaves every group other
    than the target with the same sites and users. *)
Theorem add_all_sites_frame (w : W) (name : string) :
  let d' := db (add_all_sites_to_ocf_group name w).2 in
  tbl_sites d' = tbl_sites (db w) ∧
  tbl_site_groups d' = tbl_site_groups (db w) ∧
  tbl_users d' = tbl_users (db w) ∧
  tbl_site_group_sites (db w) `prefix_of` tbl_site_group_sites d' ∧
  (∀ g, site_group_name g ≠ name →
     SiteGroupSQL_sites d' g = SiteGroupSQL_sites (db w) g ∧
     SiteGroupSQL_users d' g = SiteGroupSQL_users (db w) g).
Proof.
  rewrite add_all_sites_cases.
  destruct (find _ _) as [g0|] eqn:Hg0; simpl.
  2: { split_and!; try done. }
  apply find_elem_of in Hg0 as [_ Hname%has_name_true].
  split_and!; try done.
  - by eexists.
  - intros g Hne. split; [|done]. unfold SiteGroupSQL_sites. simpl.
    rewrite filter_app.
    rewrite (filter_none _ (rows_for g0 _)); [by rewrite app_nil_r|].
    intros r (s & -> & _)%list_elem_of_fmap. simpl. congruence.
Qed.

(** ** Bulk attach against attaching the sites one by one *)

Lemma ensure_member_sites uuid name (d : Db) :
  tbl_sites (ensure_member uuid name d) = tbl_sites d ∧
  tbl_site_groups (ensure_member uuid name d) = tbl_site_groups d.
Proof. by destruct (ensure_member_tables uuid name d) as [-> | ->]. Qed.

Lemma attach_each_tables name (sites : list Site) :
  ∀ (w : W) g,
  find (has_name name) (tbl_site_groups (db w)) = Some g →
  (∀ s, s ∈ sites → is_Some (find (has_uuid (site_uuid s)) (tbl_sites (db w)))) →
  db (attach_each name sites w) =
  foldl (λ d s, ensure_member (site_uuid s) name d) (db w) sites.
Proof.
  induction sites as [|s rest IH]; intros w g Hg Hsites; [done|].
  change (attach_each name (s :: rest) w)
    with (attach_each name rest (update_site_group (site_uuid s) name w).2).
  destruct (Hsites s) as [s0 Hs0]; [by left|].
  destruct (ensure_member_sites (site_uuid s) name (db w)) as [Hsame_sites Hsame_groups].
  assert (Hdb : db (update_site_group (site_uuid s) name w).2 =
                ensure_member (site_uuid s) name (db w)).
  { by rewrite update_site_group_cases, Hg, Hs0. }
  rewrite (IH _ g); rewrite Hdb.
  - done.
  - by rewrite Hsame_groups.
  - intros s' Hs'. rewrite Hsame_sites. apply Hsites. by right.
Qed.

Lemma foldl_ensure_member name (sites : list Site) :
  ∀ d : Db,
  NoDup (map site_uuid sites) →
  foldl (λ d s, ensure_member (site_uuid s) name d) d sites =
  insert_rows
    (map (λ s, membership_row (site_uuid s) name)
       (filter (λ s, membership_row (site_uuid s) name ∉ tbl_site_group_sites d) sites))
    d.
Proof.
  induction sites as [|s rest IH]; intros d Hnodup.
  - simpl. by rewrite insert_rows_nil.
  - simpl in Hnodup. apply NoDup_cons in Hnodup as [Hs Hrest].
    simpl. rewrite IH by done. unfold ensure_member.
    destruct (decide (membership_row (site_uuid s) name ∈ tbl_site_group_sites d))
      as [Hin|Hout].
    + rewrite filter_cons_False; [done|]. by intros Hnot.
    + rewrite filter_cons_True by done. rewrite insert_rows_app. simpl.
      do 3 f_equal. apply filter_ext_elem_of. intros s' Hs'.
      rewrite elem_of_app, list_elem_of_singleton. split; [tauto|].
      intros Hnot [Hold|[= Heq]]; [done|]. apply Hs.
      apply list_elem_of_fmap. by exists s'.
Qed.

(** With distinct site UUIDs in the site table and a target group that
    exists, the bulk attach leaves the tables that attaching the sites of
    the table one by one, with [update_site_group], leaves. *)
Theorem add_all_sites_as_single_attaches (w : W) (name : string) (g : SiteGroupSQL) :
  find (has_name name) (tbl_site_groups (db w)) = Some g →
  NoDup (map site_uuid (tbl_sites (db w))) →
  db (add_all_sites_to_ocf_group name w).2 =
  db (attach_each name (tbl_sites (db w)) w).
Proof.
  intros Hg Hnodup.
  rewrite (attach_each_tables name _ w g Hg).
  2: { intros s Hs. apply (find_is_Some _ _ s Hs). by apply has_uuid_true. }
  rewrite foldl_ensure_member by done.
  rewrite add_all_sites_cases, Hg. simpl.
  apply find_elem_of in Hg as [_ Hname%has_name_true].
  rewrite missing_sites_by_rows, Hname. unfold rows_for. by rewrite Hname.
Qed.

(** ** Reassigning a user's group: outcome, frame, composition *)

Lemma change_user_site_group_cases (w : W) e name :
  change_user_site_group e name w =
  match find (has_name name) (tbl_site_groups (db w)),
        find (has_email e) (tbl_users (db w)) with
  | Some g, Some u =>
      (Ok (e, name),
       {| db := update_users (set_user_site_group e name) (db w);
          calls := calls w ++ [Call_update_user_site_group e name;
                               Call_get_user_by_email e] |})
  | _, _ => (Raise NotFound, log (Call_update_user_site_group e name) w)
  end.
Proof.
  destruct (find (has_name name) _) as [g|] eqn:Hg.
  - destruct (find (has_email e) _) as [u|] eqn:Hu.
    + pose proof (find_elem_of _ _ _ Hu) as [_ He%has_email_true].
      pose proof (find_elem_of _ _ _ Hg) as [_ Hname%has_name_true].
      unfold change_user_site_group.
      rewrite bind_run, (update_user_site_group_run w e name u g Hu Hg).
      rewrite bind_run, get_user_by_email_run. simpl.
      rewrite find_has_email_map by apply set_user_site_group_email.
      rewrite Hu. dbm. unfold UserSQL_site_group. simpl.
      rewrite set_user_site_group_at by done. rewrite Hg. simpl.
      rewrite set_user_site_group_email, He, Hname. unfold log. simpl.
      by rewrite <- !(assoc_L (++)).
    + unfold change_user_site_group, update_user_site_group. dbm.
      rewrite Hg. simpl. by rewrite Hu.
  - unfold change_user_site_group, update_user_site_group. dbm. by rewrite Hg.
Qed.

(** [change_user_site_group] raises exactly when the group name or the e-mail
    resolves to no row; what it raises is NotFound, and no table changes. *)
Theorem change_user_site_group_failure (w : W) (e name : string) :
  ((∃ x, (change_user_site_group e name w).1 = Raise x) ↔
   find (has_name name) (tbl_site_groups (db w)) = None ∨
   find (has_email e) (tbl_users (db w)) = None) ∧
  (∀ x, (change_user_site_group e name w).1 = Raise x →
        x = NotFound ∧ db (change_user_site_group e name w).2 = db w).
Proof.
  rewrite change_user_site_group_cases.
  destruct (find (has_name name) _) as [g|]; [|by split; [split; eauto|intros x [= <-]]].
  destruct (find (has_email e) _) as [u|].
  - split; [split|]; simpl.
    + by intros [x Hx].
    + by intros [|].
    + by intros x Hx.
  - split; [split; eauto|]. by intros x [= <-].
Qed.

Lemma filter_other_users e name users :
  filter (λ u, email u ≠ e) (map (set_user_site_group e name) users) =
  filter (λ u, email u ≠ e) users.
Proof.
  induction users as [|u users IH]; [done|]. simpl.
  destruct (decide (email u = e)) as [He|He].
  - rewrite !filter_cons_False; [done|by intros ?|].
    rewrite set_user_site_group_email. by intros ?.
  - rewrite !filter_cons_True; [|done|by rewrite set_user_site_group_email].
    rewrite IH. f_equal. unfold set_user_site_group. by rewrite decide_False.
Qed.

(** Whatever its outcome, [change_user_site_group] changes no site, group or
    membership row, and leaves the rows of every other user as they were. *)
Theorem change_user_site_group_frame (w : W) (e name : string) :
  let d' := db (change_user_site_group e name w).2 in
  tbl_sites d' = tbl_sites (db w) ∧
  tbl_site_groups d' = tbl_site_groups (db w) ∧
  tbl_site_group_sites d' = tbl_site_group_sites (db w) ∧
  filter (λ u, email u ≠ e) (tbl_users d') = filter (λ u, email u ≠ e) (tbl_users (db w)) ∧
  (∀ g, SiteGroupSQL_sites d' g = SiteGroupSQL_sites (db w) g).
Proof.
  rewrite change_user_site_group_cases.
  destruct (find (has_name name) _) as [g|]; [|done].
  destruct (find (has_email e) _) as [u|]; [|done].
  simpl. split_and!; try done. apply filter_other_users.
Qed.

(** After [change_user_site_group] has moved an existing user to an existing
    group, [get_user_details] for that user returns the sites, the name and
    the site count of that group. *)
Theorem change_then_get_user_details (w : W) (e name : string)
    (u : UserSQL) (g : SiteGroupSQL) :
  find (has_email e) (tbl_users (db w)) = Some u →
  find (has_name name) (tbl_site_groups (db w)) = Some g →
  (get_user_details e (change_user_site_group e name w).2).1 =
  Ok (map site_ids (SiteGroupSQL_sites (db w) g), name,
      length (SiteGroupSQL_sites (db w) g)).
Proof.
  intros Hu Hg. rewrite change_user_site_group_cases, Hg, Hu.
  pose proof (find_elem_of _ _ _ Hu) as [_ He%has_email_true].
  pose proof (find_elem_of _ _ _ Hg) as [_ Hname%has_name_true].
  rewrite get_user_details_run. simpl.
  rewrite find_has_email_map by apply set_user_site_group_email.
  rewrite Hu. simpl. unfold UserSQL_site_group. simpl.
  rewrite set_user_site_group_at by done. rewrite Hg. by rewrite Hname.
Qed.

Lemma set_user_site_group_idemp e name u :
  set_user_site_group e name (set_user_site_group e name u) =
  set_user_site_group e name u.
Proof.
  unfold set_user_site_group.
  destruct (decide (email u = e)) as [He|He]; simpl.
  - by rewrite decide_True.
  - by rewrite decide_False.
Qed.

(** Moving an existing user to an existing group a second time returns what
    the first time returned and changes no table. *)
Theorem change_user_site_group_again (w : W) (e name : string)
    (u : UserSQL) (g : SiteGroupSQL) :
  find (has_email e) (tbl_users (db w)) = Some u →
  find (has_name name) (tbl_site_groups (db w)) = Some g →
  let w1 := (change_user_site_group e name w).2 in
  (change_user_site_group e name w1).1 = (change_user_site_group e name w).1 ∧
  db (change_user_site_group e name w1).2 = db w1.
Proof.
  intros Hu Hg w1. subst w1.
  rewrite !(change_user_site_group_cases w), Hg, Hu. simpl.
  rewrite change_user_site_group_cases. simpl.
  rewrite Hg, find_has_email_map by apply set_user_site_group_email.
  rewrite Hu. simpl. split; [done|].
  unfold update_users. simpl. f_equal.
  rewrite map_map. apply map_ext. intros u'. apply set_user_site_group_idemp.
Qed.

(** ** The detail view of a site *)

Lemma get_site_details_found (w : W) uuid (s : Site) :
  find (has_uuid uuid) (tbl_sites (db w)) = Some s →
  ∃ details,
    get_site_details py_str strftime uuid w =
      (Ok details, log (Call_get_site_by_uuid uuid) w) ∧
    map fst details = site_details_keys ∧
    dict_get "site_uuid" details = Some (PStr (site_uuid s)) ∧
    dict_get "client_site_id" details = Some (PStr (client_site_id s)) ∧
    dict_get "site_group_names" details =
      Some (PList (map (λ g, PStr (site_group_name g)) (SiteSQL_site_groups (db w) s))).
Proof.
  intros Hs. eexists. split.
  - unfold get_site_details. rewrite bind_run, get_site_by_uuid_run, Hs.
    reflexivity.
  - split_and!; reflexivity.
Qed.

(** When [get_site_details] returns, the mapping has the fifteen keys of the
    detail view, each once, and its "site_uuid" entry is the UUID asked for. *)
Theorem get_site_details_keys (w w' : W) (uuid : string) (details : list (string * pyval)) :
  get_site_details py_str strftime uuid w = (Ok details, w') →
  map fst details = site_details_keys ∧
  NoDup (map fst details) ∧
  dict_get "site_uuid" details = Some (PStr uuid).
Proof.
  intros Hrun.
  destruct (find (has_uuid uuid) (tbl_sites (db w))) as [s|] eqn:Hs.
  - destruct (get_site_details_found w uuid s Hs) as (d & Hd & Hkeys & Huuid & _).
    rewrite Hd in Hrun. injection Hrun as <- _.
    apply find_elem_of in Hs as [_ Hs%has_uuid_true].
    rewrite Hkeys, Huuid, Hs. split_and!; [done| |done].
    apply (bool_decide_unpack _). by vm_compute.
  - unfold get_site_details in Hrun.
    by rewrite bind_run, get_site_by_uuid_run, Hs in Hrun.
Qed.

(** After [update_site_group] has returned, [get_site_details] for the site
    lists the name of the group among its "site_group_names", and
    [get_site_group_details] for the group lists the identifiers of the
    site. *)
Theorem update_then_details_show_membership (w w1 : W) (uuid name : string)
    (r : SiteGroupSQL * list (list (string * string)) * list string) :
  update_site_group uuid name w = (Ok r, w1) →
  (∃ details names,
     (get_site_details py_str strftime uuid w1).1 = Ok details ∧
     dict_get "site_group_names" details = Some (PList names) ∧
     PStr name ∈ names) ∧
  (∃ (s : Site) sites users,
     (get_site_group_details name w1).1 = Ok (sites, users) ∧
     site_uuid s = uuid ∧ site_ids s ∈ sites).
Proof.
  rewrite update_site_group_cases.
  destruct (find (has_name name) _) as [g|] eqn:Hg; [|done].
  destruct (find (has_uuid uuid) _) as [s|] eqn:Hs; [|done].
  cbv zeta. intros [= _ <-].
  set (w1 := {| db := ensure_member uuid name (db w); calls := _ |}).
  destruct (ensure_member_sites uuid name (db w)) as [Hsites Hgroups].
  pose proof (ensure_member_elem_of uuid name (db w)) as Hrow.
  pose proof (find_elem_of _ _ _ Hg) as [Hgin Hname%has_name_true].
  pose proof (find_elem_of _ _ _ Hs) as [Hsin Huuid%has_uuid_true].
  assert (Hs1 : find (has_uuid uuid) (tbl_sites (db w1)) = Some s).
  { simpl. by rewrite Hsites. }
  split.
  - destruct (get_site_details_found w1 uuid s Hs1) as (d & Hd & _ & _ & _ & Hnames).
    eexists d, _. rewrite Hd. split_and!; [done|exact Hnames|].
    apply list_elem_of_fmap. exists g. split; [by rewrite Hname|].
    apply group_of_site. simpl. rewrite Hgroups, Huuid, Hname. done.
  - exists s. eexists _, _. rewrite get_site_group_details_run. simpl.
    rewrite Hgroups, Hg. split_and!; [done..|].
    apply list_elem_of_fmap. exists s. split; [done|].
    unfold SiteGroupSQL_sites. apply elem_of_flat_map.
    exists (membership_row uuid name). split; apply list_elem_of_filter.
    + by rewrite Hname.
    + by rewrite Hsites.
Qed.

(** ** The page: the identifier shown with the details *)

Lemma NoDup_fmap_inj_on {A B} (f : A → B) l x y :
  NoDup (map f l) → x ∈ l → y ∈ l → f x = f y → x = y.
Proof.
  induction l as [|a l IH]; [by intros _ ?%elem_of_nil|].
  simpl. rewrite NoDup_cons. intros [Ha Hl] Hx Hy Hf.
  apply elem_of_cons in Hx as [->|Hx]; apply elem_of_cons in Hy as [->|Hy].
  - done.
  - destruct Ha. apply list_elem_of_fmap. by exists y.
  - destruct Ha. apply list_elem_of_fmap. by exists x.
  - by apply IH.
Qed.

(** With at least one site in the table, selecting by "site_uuid" and asking
    for the details succeeds and shows the selected UUID next to them; with
    distinct site UUIDs as well, selecting by "client_site_id" succeeds and
    shows the selected client identifier. *)
Theorem page_shows_the_selected_site (w : W) (pick : nat) :
  tbl_sites (db w) ≠ [] →
  (∃ uuid details,
     st_selectbox "Sites by site_uuid" (map site_uuid (tbl_sites (db w))) pick
       = Some uuid ∧
     (page_get_site_details py_str strftime "site_uuid" pick w).1 =
       Ok (Some (PStr uuid), details)) ∧
  (NoDup (map site_uuid (tbl_sites (db w))) →
   ∃ cid details,
     st_selectbox "Sites by client_site_id" (map client_site_id (tbl_sites (db w))) pick
       = Some cid ∧
     (page_get_site_details py_str strftime "client_site_id" pick w).1 =
       Ok (Some (PStr cid), details)).
Proof.
  intros Hne. split.
  - destruct (st_selectbox_is_Some "Sites by site_uuid"
                (map site_uuid (tbl_sites (db w))) pick) as [uuid Hsel].
    { by destruct (tbl_sites (db w)). }
    pose proof (st_selectbox_elem_of _ _ _ _ Hsel) as (s0 & -> & Hs0)%list_elem_of_fmap.
    destruct (find_is_Some (has_uuid (site_uuid s0)) (tbl_sites (db w)) s0 Hs0)
      as [s Hs]; [by apply has_uuid_true|].
    destruct (get_site_details_found (log Call_get_all_sites w) (site_uuid s0) s Hs)
      as (d & Hd & _ & Huuid & _).
    exists (site_uuid s0), d. split; [done|].
    unfold page_get_site_details.
    rewrite bind_run, select_site_id_by_uuid, Hsel.
    unfold get_site_details_button. rewrite bind_run, Hd. simpl.
    apply find_elem_of in Hs as [_ Hs%has_uuid_true].
    by rewrite Huuid, Hs.
  - intros Hnodup.
    destruct (st_selectbox_is_Some "Sites by client_site_id"
                (map client_site_id (tbl_sites (db w))) pick) as [cid Hsel].
    { by destruct (tbl_sites (db w)). }
    pose proof (st_selectbox_elem_of _ _ _ _ Hsel) as (s0 & -> & Hs0)%list_elem_of_fmap.
    destruct (find_is_Some (has_client_site_id (Some (client_site_id s0)))
                (tbl_sites (db w)) s0 Hs0) as [s1 Hs1];
      [by apply has_client_site_id_true|].
    pose proof (find_elem_of _ _ _ Hs1) as [Hs1in Hcid%has_client_site_id_true].
    destruct (find_is_Some (has_uuid (site_uuid s1)) (tbl_sites (db w)) s1 Hs1in)
      as [s Hs]; [by apply has_uuid_true|].
    pose proof (find_elem_of _ _ _ Hs) as [Hsin Huuid%has_uuid_true].
    assert (s = s1) as -> by (by apply (NoDup_fmap_inj_on site_uuid (tbl_sites (db w)))).
    set (w1 := log (Call_get_site_by_client_site_id (Some (client_site_id s0)))
                 (log Call_get_all_sites w)).
    destruct (get_site_details_found w1 (site_uuid s1) s1 Hs) as (d & Hd & _ & _ & Hc & _).
    exists (client_site_id s0), d. split; [done|].
    unfold page_get_site_details.
    pose proof (select_site_id_by_client_site_id w pick) as Hrun.
    simpl in Hrun. rewrite bind_run, Hrun, Hsel, Hs1. fold w1.
    unfold get_site_details_button. rewrite bind_run, Hd. simpl.
    by rewrite Hc, Hcid.
Qed.

(** ** The form: its checks against what it submits *)

Lemma create_new_site_button_args json_dumps (f : site_form) :
  ∃ args,
    create_new_site_button json_dumps f = Call_create_new_site args ∧
    arg_dno args =
      Some (json_dumps [("dno_id", Some (typed_dno_id f));
                        ("name", Some (typed_dno_name f));
                        ("long_name", Some (typed_dno_long_name f))]) ∧
    arg_gsp args =
      Some (json_dumps [("gsp_id", Some (typed_gsp_id f));
                        ("name", Some (typed_gsp_name f))]).
Proof.
  unfold create_new_site_button, st_text_input.
  rewrite decide_False; [by eexists|].
  rewrite !not_elem_of_cons. split_and!; try done. apply not_elem_of_nil.
Qed.

(** "Check DNO data" writes its message exactly when one of the three DNO
    inputs is empty, and "Check GSP data" when one of the two GSP inputs is;
    otherwise each shows the very string that "Create new site" passes to
    [create_new_site] as [dno], respectively [gsp]. *)
Theorem checks_preview_what_is_submitted json_dumps (f : site_form) :
  match check_dno_button json_dumps f with
  | Check_write _ =>
      typed_dno_name f = "" ∨ typed_dno_long_name f = "" ∨ typed_dno_id f = ""
  | Check_json shown =>
      typed_dno_name f ≠ "" ∧ typed_dno_long_name f ≠ "" ∧ typed_dno_id f ≠ "" ∧
      ∃ args, create_new_site_button json_dumps f = Call_create_new_site args ∧
              arg_dno args = Some shown
  end ∧
  match check_gsp_button json_dumps f with
  | Check_write _ => typed_gsp_id f = "" ∨ typed_gsp_name f = ""
  | Check_json shown =>
      typed_gsp_id f ≠ "" ∧ typed_gsp_name f ≠ "" ∧
      ∃ args, create_new_site_button json_dumps f = Call_create_new_site args ∧
              arg_gsp args = Some shown
  end.
Proof.
  destruct (create_new_site_button_args json_dumps f) as (args & Hbutton & Hdno & Hgsp).
  unfold check_dno_button, check_gsp_button, st_text_input. split.
  - destruct (decide _) as [Hempty|Hfull].
    + destruct Hempty as [[= ->]|[[= ->]|[= ->]]]; auto.
    + split_and!; [intros Heq; apply Hfull; rewrite Heq; auto..|].
      by exists args.
  - destruct (decide _) as [Hempty|Hfull].
    + destruct Hempty as [[= ->]|[= ->]]; auto.
    + split_and!; [intros Heq; apply Hfull; rewrite Heq; auto..|].
      by exists args.
Qed.

(** ** The shape of what the helpers return *)

Lemma py_dicts_site_ids (sites : list Site) :
  py_dicts (map site_ids sites) = PList (map site_ids_value sites).
Proof. unfold py_dicts. by rewrite map_map. Qed.

Lemma is_str_list_names (groups : list SiteGroupSQL) :
  is_str_list (PList (map (λ g, PStr (site_group_name g)) groups)) = true.
Proof. simpl. by induction groups. Qed.

(** C9 (as amended): what each helper returns, value by value, when it
    returns.  [get_user_details]: a list with one two-key identifier mapping
    (strings under "site_uuid" and "client_site_id") per site, a string, and
    an integer, the length of that list.  [get_site_details]: a mapping with
    the fifteen detail keys, a list of strings under "site_group_names" and a
    string under every other key.  [get_site_group_details]: a list of such
    identifier mappings and a list of strings.  [update_site_group]: the site
    group entity of the name asked for, a list of such identifier mappings
    and a list of strings.  [change_user_site_group]: two strings, the e-mail
    and the group name it was given.  [add_all_sites_to_ocf_group]: a string
    and a list of strings, the string being the no-new-sites message when the
    list is empty and the count of the list otherwise. *)
Theorem helpers_return_values_in_shape (w : W) :
  (∀ e r w', get_user_details e w = (Ok r, w') →
     ∃ (sites : list Site) name,
       get_user_details_values r =
         [PList (map site_ids_value sites); PStr name;
          PInt (Z.of_nat (length sites))]) ∧
  (∀ uuid details w',
     get_site_details py_str strftime uuid w = (Ok details, w') →
     map fst details = site_details_keys ∧
     ∀ key v, (key, v) ∈ details →
       if decide (key = "site_group_names") then is_str_list v = true
       else is_str v = true) ∧
  (∀ name r w', get_site_group_details name w = (Ok r, w') →
     ∃ (sites : list Site) emails,
       get_site_group_details_values r =
         [PList (map site_ids_value sites); PList (map PStr emails)]) ∧
  (∀ uuid name r w', update_site_group uuid name w = (Ok r, w') →
     ∃ (sites : list Site) names,
       update_site_group_values r =
         [PEntity {| site_group_name := name |};
          PList (map site_ids_value sites); PList (map PStr names)]) ∧
  (∀ e name r w', change_user_site_group e name w = (Ok r, w') →
     change_user_site_group_values r = [PStr e; PStr name]) ∧
  (∀ name r w', add_all_sites_to_ocf_group name w = (Ok r, w') →
     ∃ uuids,
       add_all_sites_to_ocf_group_values r =
         [PStr (if decide (uuids = []) then no_new_sites_message name
                else added_message (length uuids) name);
          PList (map PStr uuids)]).
Proof.
  split_and!.
  - intros e r w'. rewrite get_user_details_run.
    destruct (find _ _) as [u|]; [|done].
    destruct (UserSQL_site_group _ _) as [g|]; [|done].
    intros [= <- _]. exists (SiteGroupSQL_sites (db w) g), (site_group_name g).
    simpl. by rewrite py_dicts_site_ids.
  - intros uuid details w' Hrun.
    destruct (find (has_uuid uuid) (tbl_sites (db w))) as [s|] eqn:Hs.
    2: { unfold get_site_details in Hrun.
         by rewrite bind_run, get_site_by_uuid_run, Hs in Hrun. }
    unfold get_site_details in Hrun.
    rewrite bind_run, get_site_by_uuid_run, Hs in Hrun.
    injection Hrun as <- _. split; [done|].
    intros key v Hin.
    repeat (apply elem_of_cons in Hin as [[= -> ->]|Hin]);
      try (by apply elem_of_nil in Hin);
      case_decide; try done.
    apply is_str_list_names.
  - intros name r w'. rewrite get_site_group_details_run.
    destruct (find _ _) as [g|]; [|done].
    intros [= <- _].
    exists (SiteGroupSQL_sites (db w) g), (map email (SiteGroupSQL_users (db w) g)).
    simpl. by rewrite py_dicts_site_ids.
  - intros uuid name r w'. rewrite update_site_group_cases.
    destruct (find (has_name name) _) as [g|] eqn:Hg; [|done].
    destruct (find (has_uuid uuid) _) as [s|]; [|done].
    cbv zeta. intros [= <- _].
    apply find_elem_of in Hg as [_ Hname%has_name_true].
    destruct g as [gname]. simpl in Hname. subst gname.
    eexists (SiteGroupSQL_sites _ _), (map site_group_name (SiteSQL_site_groups _ s)).
    simpl. by rewrite py_dicts_site_ids.
  - intros e name r w'. rewrite change_user_site_group_cases.
    destruct (find (has_name name) _) as [g|]; [|done].
    destruct (find (has_email e) _) as [u|]; [|done].
    by intros [= <- _].
  - intros name r w'. rewrite add_all_sites_cases.
    destruct (find _ _) as [g|]; [|done].
    cbv zeta. intros [= <- _]. eexists (map site_uuid _). simpl.
    rewrite length_map. do 2 f_equal.
    by destruct (filter _ _).
Qed.

End Properties.

(** * The properties on the sample data *)

(** Alice is in the group "client", which has the one site "uuid-a"; nobody
    has the e-mail of Bob. *)
Lemma get_user_details_correct_witness :
  get_user_details "alice@example.org" sample_world =
    (Ok ([[("site_uuid", "uuid-a"); ("client_site_id", "101")]], "client", 1),
     log (Call_get_user_by_email "alice@example.org") sample_world) ∧
  get_user_details "bob@example.org" sample_world =
    (Raise NotFound, log (Call_get_user_by_email "bob@example.org") sample_world).
Proof.
  split.
  - destruct (get_user_details_correct sample_world "alice@example.org")
      as [Hfound _].
    destruct (Hfound {| email := "alice@example.org"; user_site_group := "client" |}
                {| site_group_name := "client" |}) as [_ Hrun];
      [reflexivity..|exact Hrun].
  - destruct (get_user_details_correct sample_world "bob@example.org")
      as [_ Hnone].
    apply Hnone. intros u Hu. apply list_elem_of_singleton in Hu as ->. discriminate.
Defined.

(** The bulk attach on the sample data adds both sites to "ocf"; run again,
    it adds none. *)
Lemma add_all_sites_twice_witness :
  add_all_sites_to_ocf_group "ocf" sample_world =
    (Ok ("Added 2 sites to group ocf.", ["uuid-a"; "uuid-b"]),
     (add_all_sites_to_ocf_group "ocf" sample_world).2) ∧
  ∃ w2,
    add_all_sites_to_ocf_group "ocf" (add_all_sites_to_ocf_group "ocf" sample_world).2 =
      (Ok (no_new_sites_message "ocf", []), w2) ∧
    db w2 = db (add_all_sites_to_ocf_group "ocf" sample_world).2.
Proof.
  split; [reflexivity|].
  apply (add_all_sites_twice sample_world _ "ocf"
           ("Added 2 sites to group ocf.", ["uuid-a"; "uuid-b"])).
  reflexivity.
Defined.

(** The group "client" has "uuid-a" already: the bulk attach adds "uuid-b". *)
Lemma add_all_sites_adds_exactly_missing_witness :
  (get_site_group_by_name "client" sample_world).1 = Ok {| site_group_name := "client" |} ∧
  ∃ w',
    add_all_sites_to_ocf_group "client" sample_world =
      (Ok ("Added 1 sites to group client.", ["uuid-b"]), w') ∧
    db w' = insert_rows [membership_row "uuid-b" "client"] (db sample_world).
Proof.
  split; [reflexivity|].
  destruct (add_all_sites_adds_exactly_missing sample_world "client") as [Hfound _].
  apply (Hfound {| site_group_name := "client" |}).
  reflexivity.
Defined.

(** Attaching "uuid-a", a member of "client" already, twice. *)
Lemma update_site_group_twice_witness :
  membership_count "uuid-a" "client" (db sample_world) ≤ 1 ∧
  ∃ r1 w1 r2 w2,
    update_site_group "uuid-a" "client" sample_world = (Ok r1, w1) ∧
    update_site_group "uuid-a" "client" w1 = (Ok r2, w2) ∧
    db w2 = db w1 ∧
    membership_count "uuid-a" "client" (db w2) = 1 ∧
    (membership_row "uuid-a" "client" ∈ tbl_site_group_sites (db sample_world) →
     db w1 = db sample_world).
Proof.
  split; [vm_compute; lia|].
  apply (update_site_group_twice sample_world "uuid-a" "client" site_a
           {| site_group_name := "client" |}).
  - reflexivity.
  - reflexivity.
  - vm_compute. lia.
Defined.

(** Attaching "uuid-b" to "ocf" leaves the group "client" as it was. *)
Lemma update_site_group_frame_witness :
  "client" ≠ "ocf" ∧
  SiteGroupSQL_sites (db (update_site_group "uuid-b" "ocf" sample_world).2)
    {| site_group_name := "client" |} = [site_a] ∧
  SiteGroupSQL_users (db (update_site_group "uuid-b" "ocf" sample_world).2)
    {| site_group_name := "client" |} =
    [ {| email := "alice@example.org"; user_site_group := "client" |} ].
Proof.
  split; [discriminate|].
  destruct (update_site_group_frame sample_world "uuid-b" "ocf") as [Hgroups _].
  destruct (Hgroups {| site_group_name := "client" |}) as [Hsites Husers].
  - discriminate.
  - split; [rewrite Hsites|rewrite Husers]; reflexivity.
Defined.

(** Alice moves from "client" to "ocf". *)
Lemma change_user_site_group_exclusive_witness :
  find (has_email "alice@example.org") (tbl_users (db sample_world)) =
    Some {| email := "alice@example.org"; user_site_group := "client" |} ∧
  ∃ w',
    change_user_site_group "alice@example.org" "ocf" sample_world =
      (Ok ("alice@example.org", "ocf"), w') ∧
    (∀ g', (∃ u', u' ∈ SiteGroupSQL_users (db w') g' ∧ email u' = "alice@example.org") ↔
           site_group_name g' = "ocf").
Proof.
  split; [reflexivity|].
  destruct (change_user_site_group_exclusive sample_world "alice@example.org" "ocf"
              {| email := "alice@example.org"; user_site_group := "client" |}
              {| site_group_name := "ocf" |})
    as (w' & Hrun & _ & Hgroups & _).
  - reflexivity.
  - reflexivity.
  - exists w'. split; [exact Hrun|exact Hgroups].
Defined.

(** The client identifier "102" is carried by the site "uuid-b" only, and
    "999" by none. *)
Lemma client_site_id_lookup_agrees_with_uuid_lookup_witness :
  (get_site_by_client_site_id (Some "999") sample_world).1 = Raise NotFound ∧
  ∃ w1 view,
    select_site_id "client_site_id" 1 sample_world = (Ok (Some "uuid-b"), w1) ∧
    (get_site_details sample_str sample_strftime "uuid-b" w1).1 = Ok view ∧
    (get_site_details sample_str sample_strftime "uuid-b" sample_world).1 = Ok view.
Proof.
  split.
  - destruct (client_site_id_lookup_agrees_with_uuid_lookup
                sample_str sample_strftime sample_world "999") as (Hnone & _).
    apply Hnone. intros s Hs. apply elem_of_cons in Hs as [-> | Hs]; [discriminate|].
    apply list_elem_of_singleton in Hs as ->. discriminate.
  - destruct (client_site_id_lookup_agrees_with_uuid_lookup
                sample_str sample_strftime sample_world "102") as (_ & _ & Hone).
    apply (Hone site_b 1).
    + reflexivity.
    + right. left.
    + reflexivity.
    + intros s Hs Hcid. apply elem_of_cons in Hs as [-> | Hs]; [discriminate|].
      by apply list_elem_of_singleton in Hs.
Defined.

(** With sites in the table a valid selection gives the UUID of one of them;
    an unknown method raises and touches nothing. *)
Lemma select_site_id_spec_witness :
  select_site_id "by_name" 0 sample_world =
    (Raise (ValueError "Please select a valid query_method."), sample_world) ∧
  ∃ s w', s ∈ tbl_sites (db sample_world) ∧
    select_site_id "site_uuid" 1 sample_world = (Ok (Some (site_uuid s)), w') ∧
    db w' = db sample_world.
Proof.
  split.
  - destruct (select_site_id_spec sample_world "by_name" 0) as [Hinvalid _].
    apply Hinvalid; discriminate.
  - destruct (select_site_id_spec sample_world "site_uuid" 1) as [_ Hvalid].
    apply Hvalid.
    + by left.
    + discriminate.
Defined.

(** What the user lookup for Alice and the bulk attach on "ocf" return. *)
Lemma helpers_return_values_in_shape_witness :
  get_user_details "alice@example.org" sample_world =
    (Ok ([site_ids site_a], "client", 1),
     (get_user_details "alice@example.org" sample_world).2) ∧
  (∃ (sites : list (@SiteSQL string string)) name,
     get_user_details_values ([site_ids site_a], "client", 1) =
       [PList (map site_ids_value sites); PStr name; PInt (Z.of_nat (length sites))]) ∧
  (∃ uuids,
     add_all_sites_to_ocf_group_values
       ("Added 2 sites to group ocf.", ["uuid-a"; "uuid-b"]) =
       [PStr (if decide (uuids = []) then no_new_sites_message "ocf"
              else added_message (length uuids) "ocf");
        PList (map PStr uuids)]).
Proof.
  split; [reflexivity|].
  destruct (helpers_return_values_in_shape sample_str sample_strftime sample_world)
    as (Huser & _ & _ & _ & _ & Hbulk).
  split.
  - apply (Huser "alice@example.org" _
             (get_user_details "alice@example.org" sample_world).2).
    reflexivity.
  - apply (Hbulk "ocf" _ (add_all_sites_to_ocf_group "ocf" sample_world).2).
    reflexivity.
Defined.

(** * Where the code departs from the claims *)

(** C10 as stated fails on an empty site table: by "site_uuid" the selection
    widget has no option and [select_site_id] returns [None], not a UUID
    string; by "client_site_id" it raises NotFound. *)
Lemma select_site_id_without_sites :
  (select_site_id "site_uuid" 0 empty_world).1 = Ok None ∧
  (select_site_id "client_site_id" 0 empty_world).1 = Raise NotFound ∧
  ¬ ∃ uuid w', select_site_id "site_uuid" 0 empty_world = (Ok (Some uuid), w').
Proof.
  split_and!; [reflexivity|reflexivity|].
  intros (uuid & w' & H). discriminate H.
Defined.

(** C9 as stated fails: [get_user_details] returns a list of mappings and an
    integer count next to the group name, and [update_site_group] returns the
    site group entity first; none of these is a string, a list of strings or a
    mapping from strings to strings. *)
Lemma helpers_return_more_than_plain_values :
  returned get_user_details_values (get_user_details "alice@example.org" sample_world) =
    [PList [PDict [("site_uuid", PStr "uuid-a"); ("client_site_id", PStr "101")]];
     PStr "client"; PInt 1] ∧
  map plain_value
    (returned get_user_details_values (get_user_details "alice@example.org" sample_world)) =
    [false; true; false] ∧
  map plain_value
    (returned update_site_group_values (update_site_group "uuid-b" "client" sample_world)) =
    [false; false; true].
Proof. split_and!; reflexivity. Defined.

(** * The further properties on the sample data *)

Lemma sample_uuids_distinct : NoDup (map site_uuid (tbl_sites (db sample_world))).
Proof. apply (bool_decide_unpack _). vm_compute. exact I. Defined.

Lemma sample_rows_distinct : NoDup (tbl_site_group_sites (db sample_world)).
Proof. apply (bool_decide_unpack _). vm_compute. exact I. Defined.

(** Alice's sites are the sites of "client", and she is one of its users. *)
Lemma user_and_group_details_agree_witness :
  find (has_email "alice@example.org") (tbl_users (db sample_world)) =
    Some {| email := "alice@example.org"; user_site_group := "client" |} ∧
  ∃ sites users,
    (get_user_details "alice@example.org" sample_world).1 =
      Ok (sites, "client", length sites) ∧
    (get_site_group_details "client" sample_world).1 = Ok (sites, users) ∧
    "alice@example.org" ∈ users.
Proof.
  split; [reflexivity|].
  apply (user_and_group_details_agree sample_world "alice@example.org"
           {| email := "alice@example.org"; user_site_group := "client" |}
           {| site_group_name := "client" |}); reflexivity.
Defined.

(** Attaching "uuid-b" to "client" returns both sites of the group. *)
Lemma update_site_group_result_witness :
  update_site_group "uuid-b" "client" sample_world =
    (Ok ({| site_group_name := "client" |},
         [site_ids site_a; site_ids site_b], ["client"]),
     (update_site_group "uuid-b" "client" sample_world).2) ∧
  (∃ s : SiteSQL, s ∈ tbl_sites (db sample_world) ∧ site_uuid s = "uuid-b" ∧
                  site_ids s ∈ [site_ids site_a; site_ids site_b]) ∧
  membership_row "uuid-b" "client" ∈
    tbl_site_group_sites (db (update_site_group "uuid-b" "client" sample_world).2).
Proof.
  split; [reflexivity|].
  destruct (update_site_group_result sample_world
              (update_site_group "uuid-b" "client" sample_world).2
              "uuid-b" "client" {| site_group_name := "client" |}
              [site_ids site_a; site_ids site_b] ["client"])
    as (_ & Hsite & _ & Hrow); [reflexivity|].
  split; [exact Hsite|exact Hrow].
Defined.

(** There is no group "nobody": attaching to it raises NotFound. *)
Lemma update_site_group_failure_witness :
  find (has_name "nobody") (tbl_site_groups (db sample_world)) = None ∧
  (∃ e, (update_site_group "uuid-a" "nobody" sample_world).1 = Raise e) ∧
  db (update_site_group "uuid-a" "nobody" sample_world).2 = db sample_world.
Proof.
  split; [reflexivity|].
  destruct (update_site_group_failure sample_world "uuid-a" "nobody") as [Hiff Hraise].
  split.
  - apply Hiff. left. reflexivity.
  - apply (Hraise NotFound). reflexivity.
Defined.

Lemma update_site_group_keeps_rows_distinct_witness :
  NoDup (tbl_site_group_sites (db sample_world)) ∧
  NoDup (tbl_site_group_sites (db (update_site_group "uuid-b" "client" sample_world).2)).
Proof.
  split; [exact sample_rows_distinct|].
  apply (update_site_group_keeps_rows_distinct sample_world "uuid-b" "client").
  exact sample_rows_distinct.
Defined.

(** After the bulk attach on "ocf", both sites are related to "ocf". *)
Lemma add_all_sites_all_members_witness :
  add_all_sites_to_ocf_group "ocf" sample_world =
    (Ok ("Added 2 sites to group ocf.", ["uuid-a"; "uuid-b"]),
     (add_all_sites_to_ocf_group "ocf" sample_world).2) ∧
  ∀ s, s ∈ tbl_sites (db (add_all_sites_to_ocf_group "ocf" sample_world).2) →
       membership_row (site_uuid s) "ocf" ∈
         tbl_site_group_sites (db (add_all_sites_to_ocf_group "ocf" sample_world).2).
Proof.
  split; [reflexivity|].
  apply (add_all_sites_all_members sample_world _ "ocf"
           ("Added 2 sites to group ocf.", ["uuid-a"; "uuid-b"])).
  reflexivity.
Defined.

(** Two sites added to "ocf": two commits after the two lookups. *)
Lemma add_all_sites_commits_per_addition_witness :
  add_all_sites_to_ocf_group "ocf" sample_world =
    (Ok ("Added 2 sites to group ocf.", ["uuid-a"; "uuid-b"]),
     (add_all_sites_to_ocf_group "ocf" sample_world).2) ∧
  calls (add_all_sites_to_ocf_group "ocf" sample_world).2 =
    [Call_get_all_sites; Call_get_site_group_by_name "ocf"; Call_commit; Call_commit].
Proof.
  split; [reflexivity|].
  apply (add_all_sites_commits_per_addition sample_world _ "ocf"
           "Added 2 sites to group ocf." ["uuid-a"; "uuid-b"]).
  reflexivity.
Defined.

Lemma add_all_sites_keeps_rows_distinct_witness :
  NoDup (map site_uuid (tbl_sites (db sample_world))) ∧
  NoDup (tbl_site_group_sites (db sample_world)) ∧
  NoDup (tbl_site_group_sites (db (add_all_sites_to_ocf_group "client" sample_world).2)).
Proof.
  split_and!; [exact sample_uuids_distinct|exact sample_rows_distinct|].
  apply (add_all_sites_keeps_rows_distinct sample_world "client");
    [exact sample_uuids_distinct|exact sample_rows_distinct].
Defined.

(** The bulk attach on "ocf" leaves the group "client" with its one site. *)
Lemma add_all_sites_frame_witness :
  "client" ≠ "ocf" ∧
  SiteGroupSQL_sites (db (add_all_sites_to_ocf_group "ocf" sample_world).2)
    {| site_group_name := "client" |} = [site_a].
Proof.
  split; [discriminate|].
  destruct (add_all_sites_frame sample_world "ocf") as (_ & _ & _ & _ & Hgroups).
  destruct (Hgroups {| site_group_name := "client" |}) as [Hsites _].
  - discriminate.
  - rewrite Hsites. reflexivity.
Defined.

Lemma add_all_sites_as_single_attaches_witness :
  NoDup (map site_uuid (tbl_sites (db sample_world))) ∧
  db (add_all_sites_to_ocf_group "client" sample_world).2 =
  db (attach_each "client" [site_a; site_b] sample_world).
Proof.
  split; [exact sample_uuids_distinct|].
  apply (add_all_sites_as_single_attaches sample_world "client"
           {| site_group_name := "client" |});
    [reflexivity|exact sample_uuids_distinct].
Defined.

(** Nobody has the e-mail of Bob: moving him raises NotFound. *)
Lemma change_user_site_group_failure_witness :
  find (has_email "bob@example.org") (tbl_users (db sample_world)) = None ∧
  (∃ x, (change_user_site_group "bob@example.org" "ocf" sample_world).1 = Raise x) ∧
  db (change_user_site_group "bob@example.org" "ocf" sample_world).2 = db sample_world.
Proof.
  split; [reflexivity|].
  destruct (change_user_site_group_failure sample_world "bob@example.org" "ocf")
    as [Hiff Hraise].
  split.
  - apply Hiff. right. reflexivity.
  - apply (Hraise NotFound). reflexivity.
Defined.

(** Alice, moved to "ocf", which has no site yet. *)
Lemma change_then_get_user_details_witness :
  find (has_name "ocf") (tbl_site_groups (db sample_world)) =
    Some {| site_group_name := "ocf" |} ∧
  (get_user_details "alice@example.org"
     (change_user_site_group "alice@example.org" "ocf" sample_world).2).1 =
  Ok ([], "ocf", 0).
Proof.
  split; [reflexivity|].
  apply (change_then_get_user_details sample_world "alice@example.org" "ocf"
           {| email := "alice@example.org"; user_site_group := "client" |}
           {| site_group_name := "ocf" |}); reflexivity.
Defined.

Lemma change_user_site_group_again_witness :
  find (has_name "ocf") (tbl_site_groups (db sample_world)) =
    Some {| site_group_name := "ocf" |} ∧
  (change_user_site_group "alice@example.org" "ocf"
     (change_user_site_group "alice@example.org" "ocf" sample_world).2).1 =
  Ok ("alice@example.org", "ocf").
Proof.
  split; [reflexivity|].
  destruct (change_user_site_group_again sample_world "alice@example.org" "ocf"
              {| email := "alice@example.org"; user_site_group := "client" |}
              {| site_group_name := "ocf" |}) as [Hsame _]; [reflexivity..|].
  rewrite Hsame. reflexivity.
Defined.

(** The details of "uuid-a" carry the fifteen keys and its UUID. *)
Lemma get_site_details_keys_witness :
  ∃ details,
    get_site_details sample_str sample_strftime "uuid-a" sample_world =
      (Ok details, log (Call_get_site_by_uuid "uuid-a") sample_world) ∧
    map fst details = site_details_keys ∧
    dict_get "site_uuid" details = Some (PStr "uuid-a").
Proof.
  eexists. split; [reflexivity|].
  destruct (get_site_details_keys sample_str sample_strftime sample_world
              (log (Call_get_site_by_uuid "uuid-a") sample_world) "uuid-a" _ eq_refl)
    as (Hkeys & _ & Huuid).
  split; [exact Hkeys|exact Huuid].
Defined.

(** After "uuid-b" is attached to "ocf", its details list "ocf". *)
Lemma update_then_details_show_membership_witness :
  update_site_group "uuid-b" "ocf" sample_world =
    (Ok ({| site_group_name := "ocf" |}, [site_ids site_b], ["ocf"]),
     (update_site_group "uuid-b" "ocf" sample_world).2) ∧
  ∃ details names,
    (get_site_details sample_str sample_strftime "uuid-b"
       (update_site_group "uuid-b" "ocf" sample_world).2).1 = Ok details ∧
    dict_get "site_group_names" details = Some (PList names) ∧
    PStr "ocf" ∈ names.
Proof.
  split; [reflexivity|].
  destruct (update_then_details_show_membership sample_str sample_strftime
              sample_world (update_site_group "uuid-b" "ocf" sample_world).2
              "uuid-b" "ocf"
              ({| site_group_name := "ocf" |}, [site_ids site_b], ["ocf"]))
    as [Hdetails _]; [reflexivity|].
  exact Hdetails.
Defined.

(** Selecting the second site by client identifier shows "102". *)
Lemma page_shows_the_selected_site_witness :
  tbl_sites (db sample_world) ≠ [] ∧
  NoDup (map site_uuid (tbl_sites (db sample_world))) ∧
  ∃ cid details,
    st_selectbox "Sites by client_site_id"
      (map client_site_id (tbl_sites (db sample_world))) 1 = Some cid ∧
    (page_get_site_details sample_str sample_strftime "client_site_id" 1 sample_world).1 =
      Ok (Some (PStr cid), details).
Proof.
  split_and!; [discriminate|exact sample_uuids_distinct|].
  destruct (page_shows_the_selected_site sample_str sample_strftime sample_world 1)
    as [_ Hclient]; [discriminate|].
  apply Hclient. exact sample_uuids_distinct.
Defined.
